(** * SMS campaign revenue decline analysis: the analytical pipeline of
    [analysis.py], embedded and verified.

    The script is a straight-line pandas program.  Tables are lists of
    records in row order; dates are day numbers; integer columns are [int64]
    values carried in [Z] (column sums wrap around as numpy's do); float
    columns are values of [float64] below: an exact rational or one of the
    three IEEE special values.  Rounding is abstracted (finite results are
    exact rationals), and zero is unsigned: every denominator of the script is
    an integer converted to a float, a sum or a mean of revenues, or a
    difference [x - y], none of which is a negative zero for the revenues of
    type [Qc] modelled here.

    Plots, the formatting of numbers into text and the files written are
    outside the model; the regression library is a parameter of the run. *)

From Stdlib Require Import ZArith QArith Qcanon Field Lqa.
From stdpp Require Import base decidable option numbers list sorting
  strings pretty gmap fin_maps.

Local Open Scope Z_scope.

(** ** Floating-point values *)

Inductive float64 : Type :=
  | Fin (q : Qc)
  | PInf
  | NInf
  | NaN.

Global Instance float64_eq_dec : EqDecision float64.
Proof. solve_decision. Defined.

Definition of_int (z : Z) : float64 := Fin (Qc_of_Z z).

(** Sign of a value that is not [NaN]: [-1], [0] or [1]. *)
Definition fsign (x : float64) : Z :=
  match x with
  | Fin q => match (q ?= 0)%Qc with Lt => -1 | Eq => 0 | Gt => 1 end
  | PInf => 1
  | NInf => -1
  | NaN => 0
  end.

(** The infinity of a given sign; a zero sign stands for an invalid
    operation. *)
Definition inf_signed (s : Z) : float64 :=
  match s with
  | Zpos _ => PInf
  | Zneg _ => NInf
  | Z0 => NaN
  end.

Definition fneg (x : float64) : float64 :=
  match x with
  | Fin q => Fin (- q)%Qc
  | PInf => NInf
  | NInf => PInf
  | NaN => NaN
  end.

Definition fadd (x y : float64) : float64 :=
  match x, y with
  | NaN, _ | _, NaN => NaN
  | Fin a, Fin b => Fin (a + b)%Qc
  | PInf, NInf | NInf, PInf => NaN
  | PInf, _ | _, PInf => PInf
  | NInf, _ | _, NInf => NInf
  end.

Definition fsub (x y : float64) : float64 := fadd x (fneg y).

Definition fmul (x y : float64) : float64 :=
  match x, y with
  | NaN, _ | _, NaN => NaN
  | Fin a, Fin b => Fin (a * b)%Qc
  | _, _ => inf_signed (fsign x * fsign y)
  end.

(** Division never raises: numpy and pandas divide element-wise under IEEE
    rules, so [x / 0] is an infinity of the sign of [x] and [0 / 0] is
    [NaN]. *)
Definition fdiv (x y : float64) : float64 :=
  match x, y with
  | NaN, _ | _, NaN => NaN
  | Fin a, Fin b =>
      if decide (b = 0%Qc) then inf_signed (fsign x) else Fin (a / b)%Qc
  | Fin _, _ => Fin 0%Qc
  | _, Fin b =>
      if decide (b = 0%Qc) then x else inf_signed (fsign x * fsign y)
  | _, _ => NaN
  end.

Definition fltb (x y : float64) : bool :=
  match x, y with
  | NaN, _ | _, NaN => false
  | Fin a, Fin b => bool_decide (a < b)%Qc
  | _, NInf | PInf, _ => false
  | NInf, _ | Fin _, PInf => true
  end.

Definition is_nan (x : float64) : bool :=
  match x with NaN => true | _ => false end.

Definition is_inf (x : float64) : bool :=
  match x with PInf | NInf => true | _ => false end.

Definition is_finite (x : float64) : bool :=
  match x with Fin _ => true | _ => false end.

(** [x] is a finite value of the closed unit interval. *)
Definition in_unit_interval (x : float64) : Prop :=
  ∃ q : Qc, x = Fin q ∧ (0 ≤ q)%Qc ∧ (q ≤ 1)%Qc.

Declare Scope float_scope.
Delimit Scope float_scope with fl.
Bind Scope float_scope with float64.
Infix "+" := fadd : float_scope.
Infix "-" := fsub : float_scope.
Infix "*" := fmul : float_scope.
Infix "/" := fdiv : float_scope.

(** ** Integer columns *)

(** Two's-complement reduction to the [int64] range. *)
Definition wrap64 (z : Z) : Z := (z + 2 ^ 63) mod 2 ^ 64 - 2 ^ 63.

(** [Series.sum()] of an [int64] column. *)
Definition int_sum (l : list Z) : Z := wrap64 (foldr Z.add 0 l).

(** [Series.sum()] of a float column of finite values. *)
Definition Qc_sum (l : list Qc) : Qc := foldr Qcplus 0%Qc l.

(** [Series.sum()] of a float column: missing values are skipped. *)
Definition float_sum (l : list float64) : float64 :=
  foldr fadd (Fin 0%Qc) (filter (λ x, is_nan x = false) l).

(** [Series.mean()]: the sum of the values that are not missing over their
    number, and [NaN] when there is none. *)
Definition mean (l : list float64) : float64 :=
  let present := filter (λ x, is_nan x = false) l in
  match present with
  | [] => NaN
  | _ => (float_sum l / of_int (Z.of_nat (length present)))%fl
  end.

(** [Series.unique()] keeps the first occurrence of each value;
    [sorted(...)] is ascending. *)
Definition unique {A} `{EqDecision A} (l : list A) : list A :=
  reverse (remove_dups (reverse l)).

Definition sorted (l : list Z) : list Z := merge_sort Z.le l.

Definition nunique (l : list Z) : Z := Z.of_nat (length (remove_dups l)).

(** ** Records *)

Record Row : Type := {
  Date : Z;                (* calendar day, as a day number *)
  Sms_Phone_Number : Z;
  Carrier_Group : string;
  Segment : string;
  Sent : Z;
  Delivered : Z;
  Clicks : Z;
  Unique_Clicks : Z;
  Bounces : Z;
  Refusals : Z;
  Revenue : Qc
}.

Abbreviation DataFrame := (list Row).

(** ** 1. ETL *)

Definition excluded_phone : Z := 20407.

(** [df = raw[raw["Sms Phone Number"] != 20407]] *)
Definition df (raw : DataFrame) : DataFrame :=
  filter (λ r, Sms_Phone_Number r ≠ excluded_phone) raw.

(** [np.where(df["Sent"] > 0, num / df["Sent"], np.nan)] at one row. *)
Definition guarded_ratio (num : float64) (sent : Z) : float64 :=
  if decide (0 < sent) then (num / of_int sent)%fl else NaN.

Definition row_Delivery_Rate (r : Row) : float64 :=
  guarded_ratio (of_int (Delivered r)) (Sent r).

Definition row_CTR (r : Row) : float64 :=
  guarded_ratio (of_int (Clicks r)) (Sent r).

Definition row_Rev_per_Sent (r : Row) : float64 :=
  guarded_ratio (Fin (Revenue r)) (Sent r).

(** [f"Phone_{i+1}"] *)
Definition phone_label (i : nat) : string := "Phone_" +:+ pretty (S i).

(** A dict comprehension inserts its items in order. *)
Definition dict_of_items (items : list (Z * string)) : gmap Z string :=
  foldl (λ m kv, <[kv.1 := kv.2]> m) ∅ items.

(** [{v: f"Phone_{i+1}" for i, v in
      enumerate(sorted(df["Sms Phone Number"].unique()))}] *)
Definition phone_ids (d : DataFrame) : list Z :=
  sorted (unique (Sms_Phone_Number <$> d)).

Definition phone_map (d : DataFrame) : gmap Z string :=
  dict_of_items (imap (λ i v, (v, phone_label i)) (phone_ids d)).

Definition retired_phones : list Z :=
  [15122546961; 15122546963; 15122546966; 15122546967].

Definition isin_retired (r : Row) : bool :=
  bool_decide (Sms_Phone_Number r ∈ retired_phones).

Definition row_Phone_Group (r : Row) : string :=
  if isin_retired r then "Retired (4 numbers)" else "Active (2 numbers)".

(** [df["Date"].min()]; there is none in an empty table. *)
Definition min_date (dates : list Z) : option Z :=
  match dates with
  | [] => None
  | d :: ds => Some (foldr Z.min d ds)
  end.

Module Enriched.
Record t : Type := {
  base : Row;
  DayNum : Z;
  Delivery_Rate : float64;
  CTR : float64;
  Rev_per_Sent : float64;
  Phone_Label : option string;
  Phone_Group : string
}.
End Enriched.

(** The enrichment of one row of the filtered table [d]. *)
Definition enrich_row (d : DataFrame) (r : Row) : Enriched.t := {|
  Enriched.base := r;
  Enriched.DayNum := Date r - default 0 (min_date (Date <$> d));
  Enriched.Delivery_Rate := row_Delivery_Rate r;
  Enriched.CTR := row_CTR r;
  Enriched.Rev_per_Sent := row_Rev_per_Sent r;
  Enriched.Phone_Label := phone_map d !! Sms_Phone_Number r;
  Enriched.Phone_Group := row_Phone_Group r
|}.

Definition enrich (raw : DataFrame) : list Enriched.t :=
  enrich_row (df raw) <$> df raw.

(** ** 2. Daily aggregates *)

Module Daily.
Record t : Type := {
  Date : Z;
  Revenue : Qc;
  Sent : Z;
  Delivered : Z;
  Clicks : Z;
  Unique_Clicks : Z;
  Bounces : Z;
  Refusals : Z;
  Delivery_Rate : float64;
  CTR : float64;
  Rev_per_Sent : float64;
  Rev_per_Click : float64;
  DayNum : Z
}.
End Daily.

(** The rows of one date, the group of [groupby("Date")]. *)
Definition on_date (day : Z) (d : DataFrame) : DataFrame :=
  filter (λ r, Date r = day) d.

(** The index of [daily]: the distinct dates, ascending. *)
Definition daily_index (d : DataFrame) : list Z :=
  sorted (unique (Date <$> d)).

(** [Series.replace(0, 1)] at one entry. *)
Definition replace_0_1 (z : Z) : Z := if decide (z = 0) then 1 else z.

Definition daily_row (d : DataFrame) (day : Z) : Daily.t :=
  let g := on_date day d in
  let revenue := Qc_sum (Revenue <$> g) in
  let sent := int_sum (Sent <$> g) in
  let delivered := int_sum (Delivered <$> g) in
  let clicks := int_sum (Clicks <$> g) in
  {| Daily.Date := day;
     Daily.Revenue := revenue;
     Daily.Sent := sent;
     Daily.Delivered := delivered;
     Daily.Clicks := clicks;
     Daily.Unique_Clicks := int_sum (Unique_Clicks <$> g);
     Daily.Bounces := int_sum (Bounces <$> g);
     Daily.Refusals := int_sum (Refusals <$> g);
     Daily.Delivery_Rate := (of_int delivered / of_int sent)%fl;
     Daily.CTR := (of_int clicks / of_int sent)%fl;
     Daily.Rev_per_Sent := (Fin revenue / of_int sent)%fl;
     Daily.Rev_per_Click := (Fin revenue / of_int (replace_0_1 clicks))%fl;
     Daily.DayNum := day - default 0 (min_date (daily_index d)) |}.

Definition daily (d : DataFrame) : list Daily.t :=
  daily_row d <$> daily_index d.

(** ** 3. Descriptive statistics *)

(** [pd.Timestamp("2026-02-04")], as a day number (days since 1970-01-01). *)
Definition cutoff : Z := 20488.

Definition pre (d : DataFrame) : list Daily.t :=
  filter (λ a, Daily.Date a < cutoff) (daily d).

Definition post (d : DataFrame) : list Daily.t :=
  filter (λ a, cutoff ≤ Daily.Date a) (daily d).

(** The columns of the comparison table, as float columns. *)
Definition desc_columns : list (string * (Daily.t → float64)) :=
  [ ("Revenue", λ a, Fin (Daily.Revenue a));
    ("Sent", λ a, of_int (Daily.Sent a));
    ("Delivered", λ a, of_int (Daily.Delivered a));
    ("Clicks", λ a, of_int (Daily.Clicks a));
    ("Delivery_Rate", Daily.Delivery_Rate);
    ("CTR", Daily.CTR);
    ("Rev_per_Sent", Daily.Rev_per_Sent) ].

(** [(post - pre) / pre * 100] *)
Definition pct_change (pre_mean post_mean : float64) : float64 :=
  ((post_mean - pre_mean) / pre_mean * of_int 100)%fl.

Record DescRow : Type := {
  Metric : string;
  Pre_Decline_Mean : float64;
  Post_Decline_Mean : float64;
  Pct_Change : float64
}.

Definition desc_row (d : DataFrame) (c : string * (Daily.t → float64))
  : DescRow :=
  let pre_mean := mean (c.2 <$> pre d) in
  let post_mean := mean (c.2 <$> post d) in
  {| Metric := c.1;
     Pre_Decline_Mean := pre_mean;
     Post_Decline_Mean := post_mean;
     Pct_Change := pct_change pre_mean post_mean |}.

Definition desc_table (d : DataFrame) : list DescRow :=
  desc_row d <$> desc_columns.

(** Phone-group revenue comparison: one column per group present, one row
    per date, missing combinations filled with zero. *)
Definition str_le (s1 s2 : string) : Prop := String.leb s1 s2 = true.

Global Instance str_le_dec : RelDecision str_le.
Proof. intros s1 s2. unfold str_le. apply _. Defined.

Definition sorted_str (l : list string) : list string := merge_sort str_le l.

(** The column [g] of [pg]: per date, the summed revenue of the rows of
    that group. *)
Definition pg_column (d : DataFrame) (g : string) : list (Z * Qc) :=
  (λ day, (day, Qc_sum (Revenue <$>
                  filter (λ r, row_Phone_Group r = g) (on_date day d))))
    <$> daily_index d.

Record PhoneGroupRow : Type := {
  Group : string;
  Pre_decline_avg : float64;
  Post_decline_avg : float64;
  Change : float64
}.

Definition phone_group_row (d : DataFrame) (g : string) : PhoneGroupRow :=
  let pre_g := filter (λ e, e.1 < cutoff) (pg_column d g) in
  let post_g := filter (λ e, cutoff ≤ e.1) (pg_column d g) in
  let pre_mean := mean ((λ e, Fin e.2) <$> pre_g) in
  let post_mean := mean ((λ e, Fin e.2) <$> post_g) in
  {| Group := g;
     Pre_decline_avg := pre_mean;
     Post_decline_avg := post_mean;
     Change := pct_change pre_mean post_mean |}.

Definition phone_group_table (d : DataFrame) : list PhoneGroupRow :=
  phone_group_row d <$> sorted_str (unique (row_Phone_Group <$> d)).

(** ** 5. Regression analysis: decomposition of the revenue decline *)

Definition pre_df (d : DataFrame) : DataFrame :=
  filter (λ r, Date r < cutoff) d.

Definition post_df (d : DataFrame) : DataFrame :=
  filter (λ r, cutoff ≤ Date r) d.

Definition n_pre_days (d : DataFrame) : Z := nunique (Date <$> pre_df d).
Definition n_post_days (d : DataFrame) : Z := nunique (Date <$> post_df d).

(** [t["Revenue"].sum() / n] and [t["Sent"].sum() / n] *)
Definition avg_rev (t : DataFrame) (n : Z) : float64 :=
  (Fin (Qc_sum (Revenue <$> t)) / of_int n)%fl.

Definition avg_sent (t : DataFrame) (n : Z) : float64 :=
  (of_int (int_sum (Sent <$> t)) / of_int n)%fl.

Definition pre_avg_rev (d : DataFrame) : float64 :=
  avg_rev (pre_df d) (n_pre_days d).
Definition post_avg_rev (d : DataFrame) : float64 :=
  avg_rev (post_df d) (n_post_days d).
Definition total_decline (d : DataFrame) : float64 :=
  (post_avg_rev d - pre_avg_rev d)%fl.

Definition pre_avg_sent (d : DataFrame) : float64 :=
  avg_sent (pre_df d) (n_pre_days d).
Definition post_avg_sent (d : DataFrame) : float64 :=
  avg_sent (post_df d) (n_post_days d).
Definition pre_rps (d : DataFrame) : float64 :=
  (pre_avg_rev d / pre_avg_sent d)%fl.
Definition post_rps (d : DataFrame) : float64 :=
  (post_avg_rev d / post_avg_sent d)%fl.

Definition volume_effect (d : DataFrame) : float64 :=
  ((post_avg_sent d - pre_avg_sent d) * pre_rps d)%fl.
Definition efficiency_effect (d : DataFrame) : float64 :=
  ((post_rps d - pre_rps d) * post_avg_sent d)%fl.

Definition pre_retired_rev (d : DataFrame) : float64 :=
  avg_rev (filter (λ r, isin_retired r = true) (pre_df d)) (n_pre_days d).
Definition post_retired_rev (d : DataFrame) : float64 :=
  avg_rev (filter (λ r, isin_retired r = true) (post_df d)) (n_post_days d).
Definition retired_effect (d : DataFrame) : float64 :=
  (post_retired_rev d - pre_retired_rev d)%fl.

Definition pre_active_rev (d : DataFrame) : float64 :=
  avg_rev (filter (λ r, isin_retired r = false) (pre_df d)) (n_pre_days d).
Definition post_active_rev (d : DataFrame) : float64 :=
  avg_rev (filter (λ r, isin_retired r = false) (post_df d)) (n_post_days d).
Definition active_effect (d : DataFrame) : float64 :=
  (post_active_rev d - pre_active_rev d)%fl.

(** [effect / total_decline * 100], the share printed next to an effect. *)
Definition share (effect total : float64) : float64 :=
  (effect / total * of_int 100)%fl.

Record Decomposition : Type := {
  dec_pre_avg_rev : float64;
  dec_post_avg_rev : float64;
  dec_total_decline : float64;
  dec_total_decline_pct : float64;
  dec_volume_effect : float64;
  dec_volume_share : float64;
  dec_efficiency_effect : float64;
  dec_efficiency_share : float64;
  dec_retired_effect : float64;
  dec_retired_share : float64;
  dec_active_effect : float64;
  dec_active_share : float64
}.

Definition decomposition (d : DataFrame) : Decomposition := {|
  dec_pre_avg_rev := pre_avg_rev d;
  dec_post_avg_rev := post_avg_rev d;
  dec_total_decline := total_decline d;
  dec_total_decline_pct := share (total_decline d) (pre_avg_rev d);
  dec_volume_effect := volume_effect d;
  dec_volume_share := share (volume_effect d) (total_decline d);
  dec_efficiency_effect := efficiency_effect d;
  dec_efficiency_share := share (efficiency_effect d) (total_decline d);
  dec_retired_effect := retired_effect d;
  dec_retired_share := share (retired_effect d) (total_decline d);
  dec_active_effect := active_effect d;
  dec_active_share := share (active_effect d) (total_decline d)
|}.

(** ** 5. Regression analysis: the inputs of models 1 and 2 *)

(** A design matrix, column by column, under its column labels. *)
Abbreviation Design := (list (string * list float64)).

(** [(dates >= cutoff).astype(int)] at one entry. *)
Definition Post_Decline (day : Z) : Z := if decide (cutoff ≤ day) then 1 else 0.

(** Model 1: [daily_reg[["DayNum", "Post_Decline"]]] and
    [daily_reg["Revenue"]]. *)
Definition X1 (d : DataFrame) : Design :=
  [ ("DayNum", (λ a, of_int (Daily.DayNum a)) <$> daily d);
    ("Post_Decline", (λ a, of_int (Post_Decline (Daily.Date a))) <$> daily d) ].

Definition y1 (d : DataFrame) : list float64 :=
  (λ a, Fin (Daily.Revenue a)) <$> daily d.

(** [pd.get_dummies(col, prefix=p, drop_first=True)]: one indicator column
    per level but the first, levels in ascending order. *)
Definition get_dummies (prefix : string) (col : list string) : Design :=
  (λ level, (prefix +:+ "_" +:+ level,
             (λ v, of_int (if decide (v = level) then 1 else 0)) <$> col))
    <$> tail (sorted_str (unique col)).

(** [X.drop(columns=[name])] *)
Definition drop_column (name : string) (X : Design) : Design :=
  filter (λ c, c.1 ≠ name) X.

Definition row_DayNum (d : DataFrame) (r : Row) : Z :=
  Enriched.DayNum (enrich_row d r).

(** Model 2: operational counts, time trend, period indicator and the
    dummies of carrier, segment and phone group, without [Delivered]. *)
Definition X2 (d : DataFrame) : Design :=
  drop_column "Delivered"
    ([ ("Sent", (λ r, of_int (Sent r)) <$> d);
       ("Delivered", (λ r, of_int (Delivered r)) <$> d);
       ("Clicks", (λ r, of_int (Clicks r)) <$> d);
       ("Bounces", (λ r, of_int (Bounces r)) <$> d);
       ("Refusals", (λ r, of_int (Refusals r)) <$> d);
       ("DayNum", (λ r, of_int (row_DayNum d r)) <$> d);
       ("Post_Decline", (λ r, of_int (Post_Decline (Date r))) <$> d) ]
     ++ get_dummies "Carrier" (Carrier_Group <$> d)
     ++ get_dummies "Seg" (Segment <$> d)
     ++ get_dummies "PG" (row_Phone_Group <$> d)).

Definition y2 (d : DataFrame) : list float64 :=
  (λ r, Fin (Revenue r)) <$> d.

(** Number of observations and of predictors of a design matrix. *)
Definition nobs (y : list float64) : nat := length y.
Definition n_predictors (X : Design) : nat := length X.

(** What a fitted model exposes: one entry per parameter, and the model-level
    figures. *)
Record Param : Type := {
  Variable_name : string;
  Coefficient : float64;
  Std_Error : float64;
  t_stat : float64;
  p_value : float64
}.

Record OLSResults : Type := {
  params : list Param;
  rsquared : float64;
  rsquared_adj : float64;
  fit_nobs : float64
}.

(** ** 6. Summary table *)

Inductive Cell : Type :=
  | Num (x : float64)
  | Text (s : string).

Record SummaryRow : Type := {
  Summary_Metric : string;
  Pre_Decline_Avg : Cell;
  Post_Decline_Avg : Cell;
  Summary_Change : Cell
}.

Definition summary_row (d : DataFrame) (name : string)
    (col : Daily.t → float64) (scale : Z) : SummaryRow :=
  let pre_mean := mean (col <$> pre d) in
  let post_mean := mean (col <$> post d) in
  {| Summary_Metric := name;
     Pre_Decline_Avg := Num (pre_mean * of_int scale)%fl;
     Post_Decline_Avg := Num (post_mean * of_int scale)%fl;
     Summary_Change := Num (pct_change pre_mean post_mean) |}.

Definition summary (d : DataFrame) : list SummaryRow :=
  [ {| Summary_Metric := "Daily Revenue ($)";
       Pre_Decline_Avg := Num (mean ((λ a, Fin (Daily.Revenue a)) <$> pre d));
       Post_Decline_Avg := Num (mean ((λ a, Fin (Daily.Revenue a)) <$> post d));
       Summary_Change :=
         Num (pct_change (mean ((λ a, Fin (Daily.Revenue a)) <$> pre d))
                         (mean ((λ a, Fin (Daily.Revenue a)) <$> post d))) |};
    {| Summary_Metric := "Daily Sends";
       Pre_Decline_Avg := Num (mean ((λ a, of_int (Daily.Sent a)) <$> pre d));
       Post_Decline_Avg := Num (mean ((λ a, of_int (Daily.Sent a)) <$> post d));
       Summary_Change :=
         Num (pct_change (mean ((λ a, of_int (Daily.Sent a)) <$> pre d))
                         (mean ((λ a, of_int (Daily.Sent a)) <$> post d))) |};
    summary_row d "Delivery Rate (%)" Daily.Delivery_Rate 100;
    summary_row d "Click-Through Rate (%)" Daily.CTR 100;
    summary_row d "Revenue per Send (cents)" Daily.Rev_per_Sent 100;
    summary_row d "Revenue per Click (cents)" Daily.Rev_per_Click 100;
    {| Summary_Metric := "Active Phone Numbers";
       Pre_Decline_Avg := Text "6";
       Post_Decline_Avg := Text "2 (from Feb 11)";
       Summary_Change := Text "—" |} ].

(** ** 7. Regression coefficient table *)

Definition Sig (p : float64) : string :=
  if fltb p (Fin (Q2Qc (1 # 1000))) then "***"
  else if fltb p (Fin (Q2Qc (1 # 100))) then "**"
  else if fltb p (Fin (Q2Qc (5 # 100))) then "*"
  else "".

Definition coef_df (m : OLSResults) : list (Param * string) :=
  (λ c, (c, Sig (p_value c))) <$> params m.

(** ** The script *)

(** What the run reports, in the order of the script. *)
Inductive Output : Type :=
  | OutDescriptive (t : list DescRow)
  | OutPhoneGroups (t : list PhoneGroupRow)
  | OutModel1 (m : OLSResults)
  | OutModel2 (m : OLSResults)
  | OutDecomposition (r : Decomposition)
  | OutSummary (t : list SummaryRow)
  | OutCoefficients (t : list (Param * string)).

(** A raised exception, by its message. *)
Definition exn := string.

(** A run of statements: what was reported so far, and either the exception
    that stopped the run or the value reached.  The script has no [try]: an
    exception raised by a statement ends the run there. *)
Definition Script (A : Type) : Type := list Output * (exn + A).

Global Instance Script_ret : MRet Script := λ A a, ([], inr a).

Global Instance Script_bind : MBind Script := λ A B f m,
  match m.2 with
  | inl e => (m.1, inl e)
  | inr a => (m.1 ++ (f a).1, (f a).2)
  end.

Definition report (o : Output) : Script unit := ([o], inr tt).

Definition call {A} (r : exn + A) : Script A := ([], r).

Section Run.
(** The regression library is outside the repository: its two entry points
    are taken as they come. [add_constant] is [sm.add_constant], and
    [OLS_fit y X] is [sm.OLS(y, X).fit(cov_type="HC1")], which returns the
    fitted model or raises. *)
Variable add_constant : Design → Design.
Variable OLS_fit : list float64 → Design → exn + OLSResults.

Definition run (raw : DataFrame) : Script unit :=
  let d := df raw in
  report (OutDescriptive (desc_table d));;
  report (OutPhoneGroups (phone_group_table d));;
  m1 ← call (OLS_fit (y1 d) (add_constant (X1 d)));
  report (OutModel1 m1);;
  m2 ← call (OLS_fit (y2 d) (add_constant (X2 d)));
  report (OutModel2 m2);;
  report (OutDecomposition (decomposition d));;
  report (OutSummary (summary d));;
  report (OutCoefficients (coef_df m2)).
End Run.

(** ** The tables of the report ([generate_report.py]) *)

(** Text is carried as UTF-8 bytes; a prefix test on the bytes is the prefix
    test on the characters.  Colours are carried by their names. *)
Module Report.
Record Paragraph : Type := { text : string; style : string }.

Inductive StyleArg : Type :=
  | Colour (c : string)
  | Padding (n : Z)
  | Keyword (s : string)
  | Line (width : Qc) (c : string).

(** A style command: its name, the cell range it applies to, its argument. *)
Record StyleCmd : Type := {
  op : string;
  start : Z * Z;
  stop : Z * Z;
  arg : StyleArg
}.

Record Table : Type := {
  data : list (list Paragraph);
  colWidths : list Qc;
  repeatRows : Z;
  style_cmds : list StyleCmd
}.

Definition ACCENT : string := "#005A9C".
Definition LIGHT_GRAY : string := "#EBEBEB".
Definition white : string := "white".

Definition quote : string := String (Ascii.ascii_of_nat 34) EmptyString.

(** [f'<font color="{colour}">{val}</font>'] *)
Definition font (colour val : string) : string :=
  "<font color=" +:+ quote +:+ colour +:+ quote +:+ ">" +:+ val +:+ "</font>".

Definition startswith (val p : string) : bool := String.prefix p val.

(** The colouring of a value of the highlighted column. *)
Definition highlight (val : string) : string :=
  if startswith val "-" || startswith val "–" then font "#B42828" val
  else if startswith val "+" then font "#1E7A1E" val
  else val.

(** The cell made of the value at position [i] of a row. *)
Definition make_cell (highlight_col : option Z) (i : nat) (val : string)
  : Paragraph :=
  {| text := if decide (highlight_col = Some (Z.of_nat i))
             then highlight val else val;
     style := if decide (i = 0%nat) then "TableCell" else "TableCellCenter" |}.

Definition base_style : list StyleCmd :=
  [ {| op := "BACKGROUND"; start := (0, 0); stop := (-1, 0);
       arg := Colour ACCENT |};
    {| op := "TEXTCOLOR"; start := (0, 0); stop := (-1, 0);
       arg := Colour white |};
    {| op := "GRID"; start := (0, 0); stop := (-1, -1);
       arg := Line (Q2Qc (1 # 2)) "#CCCCCC" |};
    {| op := "VALIGN"; start := (0, 0); stop := (-1, -1);
       arg := Keyword "MIDDLE" |};
    {| op := "TOPPADDING"; start := (0, 0); stop := (-1, -1);
       arg := Padding 3 |};
    {| op := "BOTTOMPADDING"; start := (0, 0); stop := (-1, -1);
       arg := Padding 3 |};
    {| op := "LEFTPADDING"; start := (0, 0); stop := (-1, -1);
       arg := Padding 5 |};
    {| op := "RIGHTPADDING"; start := (0, 0); stop := (-1, -1);
       arg := Padding 5 |} ].

Definition shade (i : nat) : StyleCmd :=
  {| op := "BACKGROUND"; start := (0, Z.of_nat i); stop := (-1, Z.of_nat i);
     arg := Colour LIGHT_GRAY |}.

(** [for i in range(1, len(data)): if i % 2 == 0: ...] *)
Definition shading (n_data : nat) : list StyleCmd :=
  shade <$> filter (λ i, i mod 2 = 0)%nat (seq 1 (n_data - 1)).

Definition make_table (headers : list string) (rows : list (list string))
    (col_widths : list Qc) (highlight_col : option Z) : Table :=
  let header_cells :=
    (λ h, {| text := h; style := "TableCellBold" |}) <$> headers in
  let data := header_cells :: (imap (make_cell highlight_col) <$> rows) in
  {| data := data;
     colWidths := col_widths;
     repeatRows := 1;
     style_cmds := base_style ++ shading (length data) |}.
End Report.

(** ** Example tables *)

Definition mk_row (date phone sent delivered clicks revenue : Z) : Row := {|
  Date := date;
  Sms_Phone_Number := phone;
  Carrier_Group := "Verizon";
  Segment := "Clicker";
  Sent := sent;
  Delivered := delivered;
  Clicks := clicks;
  Unique_Clicks := clicks;
  Bounces := 0;
  Refusals := 0;
  Revenue := Qc_of_Z revenue
|}.

(** One day before the cutoff and the cutoff day: revenue 100 then 200, 100
    messages sent on each. *)
Definition two_days : DataFrame :=
  [ mk_row 20487 15122546961 100 95 10 100;
    mk_row 20488 15122546962 100 90 12 200 ].

(** A day that reports more deliveries than sends, and a day that reports a
    delivery without a send. *)
Definition over_delivered : DataFrame :=
  [ mk_row 20487 15122546961 1 2 0 10;
    mk_row 20488 15122546962 0 1 0 10 ].

(** No click before the cutoff, and the same revenue on both sides of it. *)
Definition flat_revenue : DataFrame :=
  [ mk_row 20487 15122546961 100 95 0 50;
    mk_row 20488 15122546962 200 190 5 50 ].

(** Three sending numbers, one of them the excluded short code, and a row
    that sent nothing. *)
Definition idle_row : Row := mk_row 20488 15122546961 0 0 0 0.

Definition with_short_code : DataFrame :=
  [ mk_row 20487 15122546962 100 95 10 100;
    mk_row 20487 20407 500 400 50 70;
    idle_row;
    mk_row 20488 15122546962 80 75 0 60 ].

(** ** A stand-in for the regression library *)

(** A library that refuses to fit on fewer observations than columns. *)
Definition strict_add_constant (X : Design) : Design :=
  match X with
  | [] => []
  | c :: _ => ("const", (λ _, of_int 1) <$> c.2) :: X
  end.

Definition strict_OLS_fit (y : list float64) (X : Design)
  : exn + OLSResults :=
  if decide (nobs y < n_predictors X)%nat
  then inl "insufficient observations"
  else inr {| params := (λ c, {| Variable_name := c.1;
                                 Coefficient := Fin 0%Qc;
                                 Std_Error := Fin 0%Qc;
                                 t_stat := NaN;
                                 p_value := NaN |}) <$> X;
              rsquared := Fin 0%Qc;
              rsquared_adj := Fin 0%Qc;
              fit_nobs := of_int (Z.of_nat (nobs y)) |}.

(** ** Statements of the specification that the code does not meet *)

(** What the claim asks of every row of the daily aggregate. *)
Definition daily_rates_bounded_or_undefined (raw : DataFrame) : Prop :=
  ∀ a, a ∈ daily (df raw) →
    (0 < Daily.Sent a →
       in_unit_interval (Daily.Delivery_Rate a)
       ∧ in_unit_interval (Daily.CTR a))
    ∧ (Daily.Sent a = 0 →
         Daily.Delivery_Rate a = NaN ∧ Daily.CTR a = NaN).

(** What the claim asks of the two tables it names. *)
Definition neither_inf_nor_nan (x : float64) : Prop :=
  is_inf x = false ∧ is_nan x = false.

Definition zero_denominators_signalled (raw : DataFrame) : Prop :=
  (∀ row, row ∈ desc_table (df raw) →
     Pre_Decline_Mean row = Fin 0%Qc →
     neither_inf_nor_nan (Pct_Change row))
  ∧ (total_decline (df raw) = Fin 0%Qc →
       neither_inf_nor_nan (dec_volume_share (decomposition (df raw)))
       ∧ neither_inf_nor_nan (dec_efficiency_share (decomposition (df raw)))
       ∧ neither_inf_nor_nan (dec_retired_share (decomposition (df raw)))
       ∧ neither_inf_nor_nan (dec_active_share (decomposition (df raw)))).

(** Fewer observations than predictors plus one. *)
Definition insufficient_observations (y : list float64) (X : Design) : Prop :=
  (nobs y < n_predictors X + 1)%nat.

(** What the claim asks of a run, for a regression library behaving as
    [add_constant] and [OLS_fit]: a model with too few observations is
    reported as failed, and the decomposition, which does not depend on it,
    is still reported. *)
Definition model_failure_is_local (add_constant : Design → Design)
    (OLS_fit : list float64 → Design → exn + OLSResults)
    (raw : DataFrame) : Prop :=
  insufficient_observations (y1 (df raw)) (X1 (df raw)) →
  (∃ e, OLS_fit (y1 (df raw)) (add_constant (X1 (df raw))) = inl e)
  ∧ OutDecomposition (decomposition (df raw))
      ∈ (run add_constant OLS_fit raw).1.

(** * Properties *)

(** ** Float arithmetic on finite values *)

Section FloatFacts.
Implicit Types a b q : Qc.
Implicit Types z : Z.

Lemma fdiv_Fin a b : b ≠ 0%Qc → (Fin a / Fin b)%fl = Fin (a / b)%Qc.
Proof. intros Hb. unfold fdiv. by rewrite decide_False. Qed.

Lemma fdiv_Fin_0 a : (Fin a / Fin 0%Qc)%fl = inf_signed (fsign (Fin a)).
Proof. unfold fdiv. by rewrite decide_True. Qed.

Lemma fsub_Fin a b : (Fin a - Fin b)%fl = Fin (a - b)%Qc.
Proof. reflexivity. Qed.

Lemma Qc_of_Z_ne_0 z : z ≠ 0 → Qc_of_Z z ≠ 0%Qc.
Proof. rewrite <-Z2Qc_inj_0. by intros Hz ?%Z2Qc_inj. Qed.

Lemma of_int_0 : of_int 0 = Fin 0%Qc.
Proof. unfold of_int. by rewrite Z2Qc_inj_0. Qed.
End FloatFacts.

(** ** Sums over a two-way split of a table *)

Lemma Qc_sum_cons (x : Qc) (l : list Qc) :
  Qc_sum (x :: l) = (x + Qc_sum l)%Qc.
Proof. reflexivity. Qed.

Lemma Qc_sum_split (P : Row → bool) (t : DataFrame) :
  (Qc_sum (Revenue <$> filter (λ r, P r = true) t)
   + Qc_sum (Revenue <$> filter (λ r, P r = false) t))%Qc
  = Qc_sum (Revenue <$> t).
Proof.
  induction t as [|r t IH]; [done|].
  rewrite !filter_cons. destruct (P r) eqn:HP.
  - rewrite decide_True, decide_False by done.
    rewrite !fmap_cons, !Qc_sum_cons, <-IH. ring.
  - rewrite decide_False, decide_True by done.
    rewrite !fmap_cons, !Qc_sum_cons, <-IH. ring.
Qed.

Lemma nunique_pos (l : list Z) : l ≠ [] → 0 < nunique l.
Proof.
  intros Hl. unfold nunique.
  destruct (remove_dups l) as [|x l'] eqn:E; [|simpl; lia].
  destruct l as [|y l]; [done|].
  assert (y ∈ remove_dups (y :: l)) as Hy by (apply elem_of_remove_dups; left).
  rewrite E in Hy. by apply elem_of_nil in Hy.
Qed.

Lemma n_pre_days_ne_0 (d : DataFrame) :
  pre_df d ≠ [] → Qc_of_Z (n_pre_days d) ≠ 0%Qc.
Proof.
  intros H. apply Qc_of_Z_ne_0. unfold n_pre_days.
  assert (0 < nunique (Date <$> pre_df d)); [|lia].
  apply nunique_pos. by destruct (pre_df d).
Qed.

Lemma n_post_days_ne_0 (d : DataFrame) :
  post_df d ≠ [] → Qc_of_Z (n_post_days d) ≠ 0%Qc.
Proof.
  intros H. apply Qc_of_Z_ne_0. unfold n_post_days.
  assert (0 < nunique (Date <$> post_df d)); [|lia].
  apply nunique_pos. by destruct (post_df d).
Qed.

(** The volume/efficiency split of a change of revenue, on finite averages
    with non-zero volumes. *)
Lemma laspeyres_identity (r r' s s' : Qc) :
  s ≠ 0%Qc → s' ≠ 0%Qc →
  ((Fin s' - Fin s) * (Fin r / Fin s)
   + (Fin r' / Fin s' - Fin r / Fin s) * Fin s')%fl
  = (Fin r' - Fin r)%fl.
Proof.
  intros Hs Hs'. rewrite !fdiv_Fin by done. simpl. f_equal. by field.
Qed.

Lemma avg_rev_Fin (t : DataFrame) (n : Z) :
  Qc_of_Z n ≠ 0%Qc →
  avg_rev t n = Fin (Qc_sum (Revenue <$> t) / Qc_of_Z n)%Qc.
Proof. intros Hn. unfold avg_rev, of_int. by rewrite fdiv_Fin. Qed.

Lemma avg_sent_Fin (t : DataFrame) (n : Z) :
  Qc_of_Z n ≠ 0%Qc →
  avg_sent t n = Fin (Qc_of_Z (int_sum (Sent <$> t)) / Qc_of_Z n)%Qc.
Proof. intros Hn. unfold avg_sent, of_int. by rewrite fdiv_Fin. Qed.

(** ** C1: volume effect + efficiency effect = total decline *)


(** The two-day scenario: revenue 100 then 200 on 100 messages a day. *)
Example two_days_scenario :
  pre_rps (df two_days) = of_int 1
  ∧ post_rps (df two_days) = of_int 2
  ∧ total_decline (df two_days) = of_int 100
  ∧ volume_effect (df two_days) = of_int 0
  ∧ efficiency_effect (df two_days) = of_int 100.
Proof. split_and!; vm_compute; f_equal; by apply Qc_is_canon. Qed.


(** ** C2: retired-group effect + active-group effect = total decline *)

Lemma group_effects_identity (a a' b b' n n' : Qc) :
  n ≠ 0%Qc → n' ≠ 0%Qc →
  ((Fin a' / Fin n' - Fin a / Fin n) + (Fin b' / Fin n' - Fin b / Fin n))%fl
  = (Fin (a' + b') / Fin n' - Fin (a + b) / Fin n)%fl.
Proof.
  intros Hn Hn'. rewrite !fdiv_Fin by done. simpl. f_equal. by field.
Qed.



(** ** Membership in the derived tables *)

Lemma elem_of_unique {A} `{EqDecision A} (x : A) (l : list A) :
  x ∈ unique l ↔ x ∈ l.
Proof.
  unfold unique. by rewrite elem_of_reverse, elem_of_remove_dups, elem_of_reverse.
Qed.

Lemma NoDup_unique {A} `{EqDecision A} (l : list A) : NoDup (unique l).
Proof. unfold unique. rewrite reverse_Permutation. apply NoDup_remove_dups. Qed.

Lemma sorted_Permutation (l : list Z) : sorted l ≡ₚ l.
Proof. apply merge_sort_Permutation. Qed.

Lemma elem_of_sorted (x : Z) (l : list Z) : x ∈ sorted l ↔ x ∈ l.
Proof. by rewrite sorted_Permutation. Qed.

Lemma elem_of_daily_index (d : DataFrame) (day : Z) :
  day ∈ daily_index d ↔ ∃ r, r ∈ d ∧ Date r = day.
Proof.
  unfold daily_index. rewrite elem_of_sorted, elem_of_unique, list_elem_of_fmap.
  split; [intros (r & -> & Hr) | intros (r & Hr & <-)]; eauto.
Qed.

Lemma elem_of_daily (d : DataFrame) (a : Daily.t) :
  a ∈ daily d ↔ ∃ day, day ∈ daily_index d ∧ a = daily_row d day.
Proof.
  unfold daily. rewrite list_elem_of_fmap.
  split; intros (day & H1 & H2); eauto.
Qed.

Lemma elem_of_df (raw : DataFrame) (r : Row) :
  r ∈ df raw ↔ r ∈ raw ∧ Sms_Phone_Number r ≠ excluded_phone.
Proof. unfold df. rewrite list_elem_of_filter. tauto. Qed.

(** The rates of a daily row are the quotients of its own totals. *)
Lemma daily_rates_of_totals (d : DataFrame) (a : Daily.t) :
  a ∈ daily d →
  Daily.Delivery_Rate a
    = (of_int (Daily.Delivered a) / of_int (Daily.Sent a))%fl
  ∧ Daily.CTR a = (of_int (Daily.Clicks a) / of_int (Daily.Sent a))%fl
  ∧ Daily.Rev_per_Sent a
    = (Fin (Daily.Revenue a) / of_int (Daily.Sent a))%fl
  ∧ Daily.Rev_per_Click a
    = (Fin (Daily.Revenue a) / of_int (replace_0_1 (Daily.Clicks a)))%fl.
Proof. intros (day & _ & ->)%elem_of_daily. done. Qed.

Lemma unit_ratio (x s : Z) :
  0 ≤ x ≤ s → 0 < s → in_unit_interval (of_int x / of_int s).
Proof.
  intros [Hx Hxs] Hs. unfold of_int.
  assert (0 < Qc_of_Z s)%Qc as Hs' by (by rewrite <-Z2Qc_inj_0, <-Z2Qc_inj_lt).
  assert (Qc_of_Z s ≠ 0%Qc) as Hne by (apply Qc_of_Z_ne_0; lia).
  rewrite fdiv_Fin by done. eexists; split; [done|]. unfold Qcdiv. split.
  - rewrite <-(Qcmult_0_l (/ Qc_of_Z s)).
    apply Qcmult_le_compat_r.
    + by rewrite <-Z2Qc_inj_0, <-Z2Qc_inj_le.
    + apply Qclt_le_weak, Qcinv_pos, Hs'.
  - rewrite <-(Qcmult_inv_r (Qc_of_Z s)) by done.
    apply Qcmult_le_compat_r.
    + by rewrite <-Z2Qc_inj_le.
    + apply Qclt_le_weak, Qcinv_pos, Hs'.
Qed.

Lemma zero_over_zero : (of_int 0 / of_int 0)%fl = NaN.
Proof. rewrite of_int_0. apply fdiv_Fin_0. Qed.

(** ** C3: delivery rate and click-through rate of a day *)

(** C3, as the daily aggregate computes it. When the totals of a day satisfy
    [0 ≤ delivered ≤ sent] and [0 ≤ clicks ≤ sent], its delivery rate and
    click-through rate lie in [0, 1] if its total sent is positive, and are
    [NaN] if its total sent is zero. *)
Theorem daily_rates_of_consistent_totals (raw : DataFrame) (a : Daily.t) :
  a ∈ daily (df raw) →
  0 ≤ Daily.Delivered a ≤ Daily.Sent a →
  0 ≤ Daily.Clicks a ≤ Daily.Sent a →
  (0 < Daily.Sent a →
     in_unit_interval (Daily.Delivery_Rate a)
     ∧ in_unit_interval (Daily.CTR a))
  ∧ (Daily.Sent a = 0 →
       Daily.Delivery_Rate a = NaN ∧ Daily.CTR a = NaN).
Proof.
  intros (HD & HC & _)%daily_rates_of_totals Hdel Hcl.
  rewrite HD, HC. split.
  - intros Hs. split; by apply unit_ratio.
  - intros Hs. rewrite Hs in *.
    replace (Daily.Delivered a) with 0 by lia.
    replace (Daily.Clicks a) with 0 by lia.
    split; apply zero_over_zero.
Qed.

Lemma daily_rates_of_consistent_totals_witness :
  (0 < Daily.Sent (daily_row (df two_days) 20487) →
     in_unit_interval (Daily.Delivery_Rate (daily_row (df two_days) 20487))
     ∧ in_unit_interval (Daily.CTR (daily_row (df two_days) 20487)))
  ∧ (Daily.Sent (daily_row (df two_days) 20487) = 0 →
       Daily.Delivery_Rate (daily_row (df two_days) 20487) = NaN
       ∧ Daily.CTR (daily_row (df two_days) 20487) = NaN).
Proof.
  apply (daily_rates_of_consistent_totals two_days).
  - apply elem_of_daily. exists 20487. split; [|done].
    vm_compute. apply list_elem_of_here.
  - vm_compute. split; discriminate.
  - vm_compute. split; discriminate.
Defined.

(** The hypothesis on the totals of a day follows from the same bounds on
    the rows of the table, as long as the day's sum of [Sent] stays in the
    [int64] range. *)
Lemma wrap64_small (z : Z) : 0 ≤ z < 2 ^ 63 → wrap64 z = z.
Proof. intros Hz. unfold wrap64. rewrite Z.mod_small; lia. Qed.

Lemma sums_bounded (f g : Row → Z) (t : DataFrame) :
  (∀ r, r ∈ t → 0 ≤ f r ≤ g r) →
  0 ≤ foldr Z.add 0 (f <$> t) ≤ foldr Z.add 0 (g <$> t).
Proof.
  induction t as [|r t IH]; intros H; [done|].
  rewrite !fmap_cons. cbn [foldr].
  pose proof (H r ltac:(left)).
  pose proof (IH (λ r' Hr', H r' ltac:(by right))). lia.
Qed.

Lemma consistent_rows_consistent_totals (raw : DataFrame) (a : Daily.t) :
  a ∈ daily (df raw) →
  (∀ r, r ∈ df raw →
     0 ≤ Delivered r ≤ Sent r ∧ 0 ≤ Clicks r ≤ Sent r) →
  foldr Z.add 0 (Sent <$> on_date (Daily.Date a) (df raw)) < 2 ^ 63 →
  0 ≤ Daily.Delivered a ≤ Daily.Sent a
  ∧ 0 ≤ Daily.Clicks a ≤ Daily.Sent a.
Proof.
  intros (day & _ & ->)%elem_of_daily Hrows.
  cbn [daily_row Daily.Date Daily.Delivered Daily.Clicks Daily.Sent].
  intros Hmax. unfold int_sum.
  assert (∀ r, r ∈ on_date day (df raw) → r ∈ df raw) as Hsub.
  { intros r. unfold on_date. rewrite list_elem_of_filter. tauto. }
  pose proof (sums_bounded Delivered Sent (on_date day (df raw))
                (λ r Hr, proj1 (Hrows r (Hsub r Hr)))).
  pose proof (sums_bounded Clicks Sent (on_date day (df raw))
                (λ r Hr, proj2 (Hrows r (Hsub r Hr)))).
  rewrite !wrap64_small by lia. lia.
Qed.

(** The claim fails where a day reports more deliveries than sends (a rate of
    2), and where it reports a delivery without a send (an infinite rate). *)
Lemma daily_rates_counterexample :
  ¬ daily_rates_bounded_or_undefined over_delivered.
Proof.
  intros H.
  destruct (H (daily_row (df over_delivered) 20487)) as [Hpos _].
  { apply elem_of_daily. exists 20487. split; [|done].
    vm_compute. apply list_elem_of_here. }
  destruct Hpos as [(q & Hq & _ & Hle) _]; [by vm_compute|].
  vm_compute in Hq. injection Hq as <-. by apply Hle.
Qed.

Example over_delivered_rates :
  Daily.Delivery_Rate <$> daily (df over_delivered)
  = [Fin (Qc_of_Z 2); PInf].
Proof. vm_compute. do 2 f_equal. by apply Qc_is_canon. Qed.

(** ** C4: rows that sent nothing *)

Lemma run_reaches_models (add_constant : Design → Design)
    (OLS_fit : list float64 → Design → exn + OLSResults) (raw : DataFrame) :
  ∃ rest result,
    run add_constant OLS_fit raw
    = (OutDescriptive (desc_table (df raw))
         :: OutPhoneGroups (phone_group_table (df raw)) :: rest, result).
Proof.
  unfold run. cbn [mbind Script_bind report fst snd app].
  destruct (call _) as [o [e|m1]] eqn:E1; cbn [fst snd]; [by eauto|].
  eauto.
Qed.

(** C4. A row with [Sent = 0] gets [NaN] for its delivery rate, click-through
    rate and revenue per send; when it passes the filter it is part of the
    enriched table and of the group of its date, that date has its row in the
    daily aggregate, and the run goes on to report the tables computed from
    that aggregate. *)
Theorem zero_sent_row_undefined (raw : DataFrame) (r : Row) :
  r ∈ raw →
  Sent r = 0 →
  Enriched.Delivery_Rate (enrich_row (df raw) r) = NaN
  ∧ Enriched.CTR (enrich_row (df raw) r) = NaN
  ∧ Enriched.Rev_per_Sent (enrich_row (df raw) r) = NaN
  ∧ (Sms_Phone_Number r ≠ excluded_phone →
       enrich_row (df raw) r ∈ enrich raw
       ∧ r ∈ on_date (Date r) (df raw)
       ∧ daily_row (df raw) (Date r) ∈ daily (df raw)
       ∧ ∀ add_constant OLS_fit, ∃ rest result,
           run add_constant OLS_fit raw
           = (OutDescriptive (desc_table (df raw))
                :: OutPhoneGroups (phone_group_table (df raw)) :: rest,
              result)).
Proof.
  intros Hr Hs. cbn [enrich_row Enriched.Delivery_Rate Enriched.CTR
    Enriched.Rev_per_Sent].
  unfold row_Delivery_Rate, row_CTR, row_Rev_per_Sent. rewrite Hs.
  split_and!; [done..|]. intros Hne.
  assert (r ∈ df raw) as Hd by (by apply elem_of_df).
  split_and!.
  - unfold enrich. apply list_elem_of_fmap. eauto.
  - unfold on_date. by apply list_elem_of_filter.
  - apply elem_of_daily. eexists; split; [|done].
    apply elem_of_daily_index. eauto.
  - intros. apply run_reaches_models.
Qed.

Lemma zero_sent_row_undefined_witness :
  Enriched.Delivery_Rate (enrich_row (df with_short_code) idle_row) = NaN
  ∧ Enriched.CTR (enrich_row (df with_short_code) idle_row) = NaN
  ∧ Enriched.Rev_per_Sent (enrich_row (df with_short_code) idle_row) = NaN
  ∧ (Sms_Phone_Number idle_row ≠ excluded_phone →
       enrich_row (df with_short_code) idle_row ∈ enrich with_short_code
       ∧ idle_row ∈ on_date (Date idle_row) (df with_short_code)
       ∧ daily_row (df with_short_code) (Date idle_row)
           ∈ daily (df with_short_code)
       ∧ ∀ add_constant OLS_fit, ∃ rest result,
           run add_constant OLS_fit with_short_code
           = (OutDescriptive (desc_table (df with_short_code))
                :: OutPhoneGroups (phone_group_table (df with_short_code))
                :: rest,
              result)).
Proof.
  apply (zero_sent_row_undefined with_short_code idle_row).
  - unfold with_short_code. repeat constructor.
  - reflexivity.
Defined.

(** ** C5: percentages over a denominator that is exactly zero *)

Lemma fsign_cases (q : Qc) :
  fsign (Fin q) = -1 ∨ fsign (Fin q) = 0 ∨ fsign (Fin q) = 1.
Proof. unfold fsign. destruct (q ?= 0)%Qc; auto. Qed.

Lemma inf_signed_times_100 (s : Z) :
  s = -1 ∨ s = 0 ∨ s = 1 →
  (inf_signed s * of_int 100)%fl = inf_signed s.
Proof. by intros [-> | [-> | ->]]. Qed.

Lemma inf_signed_not_finite (s : Z) : is_finite (inf_signed s) = false.
Proof. by destruct s. Qed.

(** An unguarded quotient by zero, scaled to a percentage: [NaN] for a zero
    or missing numerator, an infinity of the numerator's sign otherwise. *)
Lemma share_zero (x : float64) :
  share x (Fin 0%Qc) = inf_signed (fsign x).
Proof.
  unfold share. destruct x as [q| | |]; [|done..].
  rewrite fdiv_Fin_0. apply inf_signed_times_100, fsign_cases.
Qed.

Lemma pct_change_zero (post_mean : float64) :
  pct_change (Fin 0%Qc) post_mean = inf_signed (fsign post_mean).
Proof.
  unfold pct_change. destruct post_mean as [q| | |]; [|done..].
  rewrite fsub_Fin. replace (q - 0)%Qc with q by ring.
  apply (share_zero (Fin q)).
Qed.

(** C5, as the script computes it. No percentage is guarded: a percent
    change over a value that is exactly zero, and a share of a total that is
    exactly zero, is [NaN] if its numerator is zero or missing and an
    infinity of the sign of the numerator otherwise.  So, when the pre-period
    mean of a metric is exactly zero its percent change in the descriptive
    table is [NaN] or infinite by the post-period mean, and when the total
    decline is exactly zero the share of each effect is [NaN] or infinite by
    the effect. *)
Theorem zero_denominator_percentages (raw : DataFrame) :
  (∀ post_mean,
     pct_change (Fin 0%Qc) post_mean = inf_signed (fsign post_mean))
  ∧ (∀ effect, share effect (Fin 0%Qc) = inf_signed (fsign effect))
  ∧ (∀ row, row ∈ desc_table (df raw) →
     Pre_Decline_Mean row = Fin 0%Qc →
     Pct_Change row = inf_signed (fsign (Post_Decline_Mean row))
     ∧ is_finite (Pct_Change row) = false)
  ∧ (total_decline (df raw) = Fin 0%Qc →
       let r := decomposition (df raw) in
       dec_volume_share r = inf_signed (fsign (volume_effect (df raw)))
       ∧ dec_efficiency_share r
         = inf_signed (fsign (efficiency_effect (df raw)))
       ∧ dec_retired_share r = inf_signed (fsign (retired_effect (df raw)))
       ∧ dec_active_share r = inf_signed (fsign (active_effect (df raw)))
       ∧ is_finite (dec_volume_share r) = false
       ∧ is_finite (dec_efficiency_share r) = false
       ∧ is_finite (dec_retired_share r) = false
       ∧ is_finite (dec_active_share r) = false).
Proof.
  split_and!.
  - apply pct_change_zero.
  - apply share_zero.
  - unfold desc_table. intros row (c & -> & _)%list_elem_of_fmap.
    cbn [desc_row Pre_Decline_Mean Post_Decline_Mean Pct_Change].
    intros ->. rewrite pct_change_zero.
    split; [done|apply inf_signed_not_finite].
  - intros H0. cbn [decomposition dec_volume_share dec_efficiency_share
      dec_retired_share dec_active_share]. rewrite H0, !share_zero.
    split_and!; [done..| | | |]; apply inf_signed_not_finite.
Qed.

Lemma zero_denominator_percentages_witness :
  dec_volume_share (decomposition (df flat_revenue))
    = inf_signed (fsign (volume_effect (df flat_revenue)))
  ∧ dec_efficiency_share (decomposition (df flat_revenue))
    = inf_signed (fsign (efficiency_effect (df flat_revenue)))
  ∧ dec_retired_share (decomposition (df flat_revenue))
    = inf_signed (fsign (retired_effect (df flat_revenue)))
  ∧ dec_active_share (decomposition (df flat_revenue))
    = inf_signed (fsign (active_effect (df flat_revenue)))
  ∧ is_finite (dec_volume_share (decomposition (df flat_revenue))) = false
  ∧ is_finite (dec_efficiency_share (decomposition (df flat_revenue))) = false
  ∧ is_finite (dec_retired_share (decomposition (df flat_revenue))) = false
  ∧ is_finite (dec_active_share (decomposition (df flat_revenue))) = false.
Proof.
  apply (proj2 (proj2 (proj2 (zero_denominator_percentages flat_revenue)))).
  by vm_compute.
Defined.

(** Before the cutoff [flat_revenue] has no click, after it five: the percent
    change of [Clicks] is infinite; its total decline is zero, and the shares
    of its volume, active-group and retired-group effects are infinite. *)
Example flat_revenue_percentages :
  Pct_Change <$> filter (λ row, Metric row = "Clicks")
                        (desc_table (df flat_revenue)) = [PInf]
  ∧ total_decline (df flat_revenue) = Fin 0%Qc
  ∧ dec_volume_share (decomposition (df flat_revenue)) = PInf
  ∧ dec_active_share (decomposition (df flat_revenue)) = PInf
  ∧ dec_retired_share (decomposition (df flat_revenue)) = NInf.
Proof.
  split_and!; by vm_compute.
Qed.

Lemma zero_denominators_counterexample :
  ¬ zero_denominators_signalled flat_revenue.
Proof.
  intros [_ H]. destruct H as [[Hinf _] _].
  - by vm_compute.
  - by vm_compute in Hinf.
Qed.

(** ** C6: a regression that cannot be fitted *)

(** A three-level column keeps two indicator columns; the first level is the
    reference. *)
Example get_dummies_three_levels :
  (get_dummies "Seg" ["b"; "a"; "c"; "a"]).*1 = ["Seg_b"; "Seg_c"].
Proof. reflexivity. Qed.

Section RunFacts.
Variable add_constant : Design → Design.
Variable OLS_fit : list float64 → Design → exn + OLSResults.
Variable raw : DataFrame.

Let fit1 := OLS_fit (y1 (df raw)) (add_constant (X1 (df raw))).
Let fit2 := OLS_fit (y2 (df raw)) (add_constant (X2 (df raw))).

Lemma run_model1_raises (e : exn) :
  fit1 = inl e →
  run add_constant OLS_fit raw
  = ([ OutDescriptive (desc_table (df raw));
       OutPhoneGroups (phone_group_table (df raw)) ], inl e).
Proof. unfold fit1, run. by intros ->. Qed.

Lemma run_model2_raises (m1 : OLSResults) (e : exn) :
  fit1 = inr m1 → fit2 = inl e →
  run add_constant OLS_fit raw
  = ([ OutDescriptive (desc_table (df raw));
       OutPhoneGroups (phone_group_table (df raw));
       OutModel1 m1 ], inl e).
Proof. unfold fit1, fit2, run. by intros -> ->. Qed.

Lemma run_completes (m1 m2 : OLSResults) :
  fit1 = inr m1 → fit2 = inr m2 →
  run add_constant OLS_fit raw
  = ([ OutDescriptive (desc_table (df raw));
       OutPhoneGroups (phone_group_table (df raw));
       OutModel1 m1;
       OutModel2 m2;
       OutDecomposition (decomposition (df raw));
       OutSummary (summary (df raw));
       OutCoefficients (coef_df m2) ], inr ()).
Proof. unfold fit1, fit2, run. by intros -> ->. Qed.

Lemma decomposition_needs_both_fits (r : Decomposition) :
  OutDecomposition r ∈ (run add_constant OLS_fit raw).1 →
  ∃ m1 m2, fit1 = inr m1 ∧ fit2 = inr m2.
Proof.
  destruct fit1 as [e|m1] eqn:E1.
  { rewrite (run_model1_raises e E1). cbn [fst].
    intros H. repeat (apply elem_of_cons in H as [[=]|H]).
    by apply elem_of_nil in H. }
  destruct fit2 as [e|m2] eqn:E2; [|by eauto].
  rewrite (run_model2_raises m1 e E1 E2). cbn [fst].
  intros H. repeat (apply elem_of_cons in H as [[=]|H]).
  by apply elem_of_nil in H.
Qed.
End RunFacts.




(** ** The phone-label mapping *)

Lemma dict_of_items_list_to_map (items : list (Z * string)) :
  dict_of_items items = list_to_map (reverse items).
Proof.
  unfold dict_of_items.
  induction items as [|[k s] items IH] using rev_ind; [done|].
  by rewrite foldl_snoc, reverse_snoc, list_to_map_cons, IH.
Qed.

Lemma imap_keys {A B} (f : nat → B) (l : list A) :
  (imap (λ i v, (v, f i)) l).*1 = l.
Proof.
  revert f. induction l as [|x l IH]; intros f; [done|].
  rewrite imap_cons, fmap_cons. f_equal. apply (IH (f ∘ S)).
Qed.

Lemma unique_Permutation {A} `{EqDecision A} (l1 l2 : list A) :
  l1 ≡ₚ l2 → unique l1 ≡ₚ unique l2.
Proof.
  intros Hl. apply NoDup_Permutation; [apply NoDup_unique..|].
  intros x. by rewrite !elem_of_unique, Hl.
Qed.

Lemma length_unique {A} `{EqDecision A} (l : list A) :
  length (unique l) = length (remove_dups l).
Proof.
  apply Permutation_length, NoDup_Permutation;
    [apply NoDup_unique | apply NoDup_remove_dups |].
  intros x. by rewrite elem_of_unique, elem_of_remove_dups.
Qed.

Lemma sorted_Sorted (l : list Z) : Sorted Z.le (sorted l).
Proof. apply (Sorted_merge_sort Z.le). Qed.

Lemma sorted_ext (l1 l2 : list Z) : l1 ≡ₚ l2 → sorted l1 = sorted l2.
Proof.
  intros Hl. apply (Sorted_unique Z.le); [apply sorted_Sorted..|].
  by rewrite !sorted_Permutation.
Qed.

Lemma StronglySorted_lookup_le (l : list Z) (i j : nat) (a b : Z) :
  StronglySorted Z.le l →
  l !! i = Some a → l !! j = Some b → (i < j)%nat → a ≤ b.
Proof.
  intros Hl. revert i j. induction Hl as [|x l Hl IH Hx]; intros i j; [done|].
  destruct i as [|i], j as [|j]; try lia; cbn [lookup list_lookup].
  - intros [= <-] Hb _. rewrite Forall_forall in Hx.
    apply Hx. by eapply list_elem_of_lookup_2.
  - intros Ha Hb Hij. apply (IH i j); [done..|lia].
Qed.

Section PhoneMap.
Variable d : DataFrame.

Lemma phone_ids_NoDup : NoDup (phone_ids d).
Proof. unfold phone_ids. rewrite sorted_Permutation. apply NoDup_unique. Qed.

Lemma elem_of_phone_ids (v : Z) :
  v ∈ phone_ids d ↔ ∃ r, r ∈ d ∧ Sms_Phone_Number r = v.
Proof.
  unfold phone_ids. rewrite elem_of_sorted, elem_of_unique, list_elem_of_fmap.
  split; [intros (r & -> & Hr) | intros (r & Hr & <-)]; eauto.
Qed.

Lemma length_phone_ids :
  Z.of_nat (length (phone_ids d)) = nunique (Sms_Phone_Number <$> d).
Proof.
  unfold phone_ids, nunique.
  by rewrite sorted_Permutation, length_unique.
Qed.

Lemma phone_ids_ascending (i j : nat) (a b : Z) :
  phone_ids d !! i = Some a → phone_ids d !! j = Some b →
  (i < j)%nat → a < b.
Proof.
  intros Ha Hb Hij.
  assert (a ≤ b).
  { apply (StronglySorted_lookup_le (phone_ids d) i j); [|done..].
    apply (StronglySorted_merge_sort Z.le). }
  assert (a ≠ b); [|lia]. intros ->.
  pose proof (proj1 (NoDup_alt _) phone_ids_NoDup i j b Ha Hb). lia.
Qed.

Lemma phone_map_lookup (v : Z) (s : string) :
  phone_map d !! v = Some s
  ↔ ∃ i, phone_ids d !! i = Some v ∧ s = phone_label i.
Proof.
  unfold phone_map. rewrite dict_of_items_list_to_map.
  rewrite <-elem_of_list_to_map.
  - rewrite elem_of_reverse, elem_of_lookup_imap. split.
    + intros (i & y & [= -> ->] & Hi). eauto.
    + intros (i & Hi & ->). eauto.
  - rewrite fmap_reverse, imap_keys, reverse_Permutation.
    apply phone_ids_NoDup.
Qed.

Lemma size_phone_map : size (phone_map d) = length (phone_ids d).
Proof.
  unfold phone_map. rewrite dict_of_items_list_to_map.
  rewrite map_size_list_to_map.
  - by rewrite length_reverse, length_imap.
  - rewrite fmap_reverse, imap_keys, reverse_Permutation.
    apply phone_ids_NoDup.
Qed.
End PhoneMap.

Lemma phone_label_inj (i j : nat) : phone_label i = phone_label j → i = j.
Proof.
  unfold phone_label. intros H%(inj (String.app "Phone_")).
  by apply (inj pretty), (inj S) in H.
Qed.

Lemma df_Permutation (raw raw' : DataFrame) :
  raw' ≡ₚ raw → df raw' ≡ₚ df raw.
Proof. intros H. unfold df. by rewrite H. Qed.

Lemma phone_ids_Permutation (d d' : DataFrame) :
  d' ≡ₚ d → phone_ids d' = phone_ids d.
Proof.
  intros H. unfold phone_ids. apply sorted_ext, unique_Permutation.
  by rewrite H.
Qed.

(** ** C7: the phone-label mapping is an order-preserving bijection *)

Example phone_label_first : phone_label 0 = "Phone_1".
Proof. reflexivity. Qed.

(** C7. The mapping is defined exactly on the phone identifiers of the
    filtered table, is injective, and its labels are exactly
    [Phone_1 .. Phone_N] for [N] the number of distinct identifiers; a smaller
    identifier gets a smaller label index; and the mapping is a function of
    the input that does not even depend on the order of its rows. *)
Theorem phone_map_bijection (raw : DataFrame) :
  (∀ v, is_Some (phone_map (df raw) !! v)
        ↔ ∃ r, r ∈ df raw ∧ Sms_Phone_Number r = v)
  ∧ (∀ v1 v2 s,
       phone_map (df raw) !! v1 = Some s →
       phone_map (df raw) !! v2 = Some s → v1 = v2)
  ∧ (∀ s, (∃ v, phone_map (df raw) !! v = Some s)
          ↔ ∃ i, (i < size (phone_map (df raw)))%nat ∧ s = phone_label i)
  ∧ Z.of_nat (size (phone_map (df raw)))
    = nunique (Sms_Phone_Number <$> df raw)
  ∧ (∀ v1 v2 i j,
       phone_map (df raw) !! v1 = Some (phone_label i) →
       phone_map (df raw) !! v2 = Some (phone_label j) →
       (v1 < v2 ↔ (i < j)%nat))
  ∧ (∀ raw', raw' ≡ₚ raw → phone_map (df raw') = phone_map (df raw)).
Proof.
  set (d := df raw). split_and!.
  - intros v. rewrite <-elem_of_phone_ids, list_elem_of_lookup. split.
    + intros [s (i & Hi & _)%phone_map_lookup]. eauto.
    + intros [i Hi]. exists (phone_label i). apply phone_map_lookup. eauto.
  - intros v1 v2 s (i & Hi & ->)%phone_map_lookup
      (j & Hj & ->%phone_label_inj)%phone_map_lookup. congruence.
  - intros s. rewrite size_phone_map. split.
    + intros [v (i & Hi & ->)%phone_map_lookup].
      exists i. split; [|done]. by eapply lookup_lt_Some.
    + intros (i & Hi & ->). apply lookup_lt_is_Some in Hi as [v Hv].
      exists v. apply phone_map_lookup. eauto.
  - rewrite size_phone_map. apply length_phone_ids.
  - intros v1 v2 i j (i' & Hi & <-%phone_label_inj)%phone_map_lookup
      (j' & Hj & <-%phone_label_inj)%phone_map_lookup.
    split.
    + intros Hv. destruct (decide (i < j)%nat) as [|Hge]; [done|].
      destruct (decide (i = j)) as [->|]; [simplify_eq; lia|].
      assert (v2 < v1); [|lia].
      apply (phone_ids_ascending d j i); [done..|lia].
    + by apply (phone_ids_ascending d i j).
  - intros raw' Hp. unfold phone_map.
    by rewrite (phone_ids_Permutation (df raw) (df raw')
                  (df_Permutation raw raw' Hp)).
Qed.

(** ** C8: revenue per click on a day without clicks *)

(** C8. On a day whose total click count is zero the divisor is replaced by
    one: revenue per click is that day's revenue. *)
Theorem rev_per_click_zero_clicks (raw : DataFrame) (a : Daily.t) :
  a ∈ daily (df raw) →
  Daily.Clicks a = 0 →
  replace_0_1 (Daily.Clicks a) = 1
  ∧ Daily.Rev_per_Click a = Fin (Daily.Revenue a).
Proof.
  intros (_ & _ & _ & HR)%daily_rates_of_totals Hc.
  rewrite HR, Hc. split; [done|].
  change (replace_0_1 0) with 1. unfold of_int.
  rewrite Z2Qc_inj_1, fdiv_Fin by done.
  by rewrite (right_id 1%Qc Qcdiv).
Qed.

Lemma rev_per_click_zero_clicks_witness :
  replace_0_1 (Daily.Clicks (daily_row (df flat_revenue) 20487)) = 1
  ∧ Daily.Rev_per_Click (daily_row (df flat_revenue) 20487)
    = Fin (Daily.Revenue (daily_row (df flat_revenue) 20487)).
Proof.
  apply (rev_per_click_zero_clicks flat_revenue).
  - apply elem_of_daily. exists 20487. split; [|done].
    vm_compute. apply list_elem_of_here.
  - reflexivity.
Defined.

(** ** C9: the exclusion filter *)

Lemma df_idemp (raw : DataFrame) : df (df raw) = df raw.
Proof.
  unfold df. induction raw as [|r raw IH]; [done|].
  rewrite filter_cons. case_decide; [|done].
  rewrite filter_cons, decide_True by done. by rewrite IH.
Qed.

Lemma phone_map_excluded (raw : DataFrame) :
  phone_map (df raw) !! excluded_phone = None.
Proof.
  apply eq_None_not_Some. intros [s (i & Hi & _)%phone_map_lookup].
  apply list_elem_of_lookup_2, elem_of_phone_ids in Hi as (r & Hr & Hp).
  by apply elem_of_df in Hr as [_ Hr].
Qed.

(** C9. The filtered table is a sub-table of the input, so it has at most as
    many rows; no retained or enriched row carries the excluded identifier,
    which gets no label; and every report of the run is computed from the
    retained rows alone. *)
Theorem filter_excludes_short_code (raw : DataFrame) :
  (length (df raw) ≤ length raw)%nat
  ∧ df raw `sublist_of` raw
  ∧ (∀ r, r ∈ df raw → Sms_Phone_Number r ≠ excluded_phone)
  ∧ (∀ e, e ∈ enrich raw →
          Sms_Phone_Number (Enriched.base e) ≠ excluded_phone)
  ∧ phone_map (df raw) !! excluded_phone = None
  ∧ (∀ add_constant OLS_fit,
       run add_constant OLS_fit raw = run add_constant OLS_fit (df raw)).
Proof.
  split_and!.
  - apply length_filter.
  - apply sublist_filter.
  - by intros r [_ ?]%elem_of_df.
  - unfold enrich. intros e (r & -> & [_ ?]%elem_of_df)%list_elem_of_fmap. done.
  - apply phone_map_excluded.
  - intros. unfold run. by rewrite df_idemp.
Qed.

(** ** C10: labels are given after the filter *)

Lemma nunique_raw (raw : DataFrame) :
  nunique (Sms_Phone_Number <$> raw)
  = nunique (Sms_Phone_Number <$> df raw)
    + (if bool_decide (excluded_phone ∈ Sms_Phone_Number <$> raw)
       then 1 else 0).
Proof.
  unfold nunique.
  set (extra := if bool_decide (excluded_phone ∈ Sms_Phone_Number <$> raw)
                then [excluded_phone] else []).
  assert (remove_dups (Sms_Phone_Number <$> raw)
          ≡ₚ extra ++ remove_dups (Sms_Phone_Number <$> df raw)) as ->.
  { apply NoDup_Permutation; [apply NoDup_remove_dups| |].
    - apply NoDup_app. split_and!; [|..|apply NoDup_remove_dups].
      + unfold extra. case_bool_decide; [apply NoDup_singleton|constructor].
      + intros x Hx (r & -> & [_ Hr]%elem_of_df)%elem_of_remove_dups%list_elem_of_fmap.
        unfold extra in Hx. case_bool_decide.
        * apply list_elem_of_singleton in Hx. congruence.
        * by apply elem_of_nil in Hx.
    - intros x. rewrite elem_of_app, !elem_of_remove_dups, !list_elem_of_fmap.
      unfold extra. split.
      + intros (r & -> & Hr).
        destruct (decide (Sms_Phone_Number r = excluded_phone)) as [He|Hne].
        * left. rewrite bool_decide_true; [rewrite He; constructor|].
          rewrite <-He. apply list_elem_of_fmap. eauto.
        * right. exists r. split; [done|]. by apply elem_of_df.
      + intros [Hx|(r & -> & [Hr _]%elem_of_df)]; [|by eauto].
        case_bool_decide as Hin; [|by apply elem_of_nil in Hx].
        apply list_elem_of_singleton in Hx as ->.
        by apply list_elem_of_fmap in Hin. }
  rewrite length_app. unfold extra. case_bool_decide; simpl; lia.
Qed.

(** C10. The excluded identifier has no label; the number [N] of labels is
    the number of distinct identifiers of the filtered table, every label is
    one of [Phone_1 .. Phone_N] and each of these is given; the raw input has
    one more distinct identifier exactly when it contains the excluded
    one. *)
Theorem phone_map_after_filter (raw : DataFrame) :
  phone_map (df raw) !! excluded_phone = None
  ∧ Z.of_nat (size (phone_map (df raw)))
    = nunique (Sms_Phone_Number <$> df raw)
  ∧ (∀ v s, phone_map (df raw) !! v = Some s →
       ∃ i, (i < size (phone_map (df raw)))%nat ∧ s = phone_label i)
  ∧ (∀ i, (i < size (phone_map (df raw)))%nat →
       ∃ v, phone_map (df raw) !! v = Some (phone_label i))
  ∧ nunique (Sms_Phone_Number <$> raw)
    = Z.of_nat (size (phone_map (df raw)))
      + (if bool_decide (excluded_phone ∈ Sms_Phone_Number <$> raw)
         then 1 else 0).
Proof.
  rewrite size_phone_map, length_phone_ids. split_and!.
  - apply phone_map_excluded.
  - done.
  - intros v s (i & Hi & ->)%phone_map_lookup.
    exists i. split; [|done]. by eapply lookup_lt_Some.
  - intros i [v Hv]%lookup_lt_is_Some.
    exists v. apply phone_map_lookup. eauto.
  - apply nunique_raw.
Qed.

(** * Further properties of the pipeline *)

(** ** Sorted distinct keys *)

Lemma sorted_unique_NoDup (l : list Z) : NoDup (sorted (unique l)).
Proof. rewrite sorted_Permutation. apply NoDup_unique. Qed.

Lemma sorted_unique_ascending (l : list Z) (i j : nat) (a b : Z) :
  sorted (unique l) !! i = Some a → sorted (unique l) !! j = Some b →
  (i < j)%nat → a < b.
Proof.
  intros Ha Hb Hij.
  assert (a ≤ b).
  { apply (StronglySorted_lookup_le (sorted (unique l)) i j); [|done..].
    apply (StronglySorted_merge_sort Z.le). }
  assert (a ≠ b); [|lia]. intros ->.
  pose proof (proj1 (NoDup_alt _) (sorted_unique_NoDup l) i j b Ha Hb). lia.
Qed.

Lemma daily_dates (d : DataFrame) : Daily.Date <$> daily d = daily_index d.
Proof.
  unfold daily. rewrite <-list_fmap_compose.
  induction (daily_index d) as [|x l IH]; [done|].
  rewrite fmap_cons. by f_equal.
Qed.

Lemma length_daily (d : DataFrame) :
  Z.of_nat (length (daily d)) = nunique (Date <$> d).
Proof.
  unfold daily, daily_index, nunique.
  by rewrite length_fmap, sorted_Permutation, length_unique.
Qed.

(** X1. The daily aggregate has exactly one row per date of the table it is
    built from, in strictly ascending order of the date. *)
Theorem daily_one_row_per_date (d : DataFrame) :
  (∀ day, (∃ a, a ∈ daily d ∧ Daily.Date a = day)
          ↔ ∃ r, r ∈ d ∧ Date r = day)
  ∧ (∀ i j a b,
       daily d !! i = Some a → daily d !! j = Some b →
       (i < j)%nat → Daily.Date a < Daily.Date b)
  ∧ (∀ a b, a ∈ daily d → b ∈ daily d →
       Daily.Date a = Daily.Date b → a = b)
  ∧ Z.of_nat (length (daily d)) = nunique (Date <$> d).
Proof.
  split_and!.
  - intros day. rewrite <-elem_of_daily_index. split.
    + intros (a & (day' & Hd & ->)%elem_of_daily & <-). done.
    + intros Hd. exists (daily_row d day). split; [|done].
      apply elem_of_daily. eauto.
  - intros i j a b Ha Hb Hij.
    apply (sorted_unique_ascending (Date <$> d) i j); [| |done].
    + change (daily_index d !! i = Some (Daily.Date a)).
      by rewrite <-daily_dates, list_lookup_fmap, Ha.
    + change (daily_index d !! j = Some (Daily.Date b)).
      by rewrite <-daily_dates, list_lookup_fmap, Hb.
  - intros a b (da & _ & ->)%elem_of_daily (db & _ & ->)%elem_of_daily.
    cbn [daily_row Daily.Date]. by intros ->.
  - apply length_daily.
Qed.

(** ** Sums by group *)

Section GroupSums.
Context {M : Type} (add : M → M → M) (zero : M).
Context `{!Assoc (=) add, !Comm (=) add, !LeftId (=) zero add}.
Context {K : Type} `{EqDecision K}.
Variable key : Row → K.
Variable f : Row → M.

Let total (t : DataFrame) : M := foldr add zero (f <$> t).
Let group (k : K) (t : DataFrame) : DataFrame := filter (λ r, key r = k) t.

Lemma group_sums_absent (ks : list K) (r : Row) (t : DataFrame) :
  key r ∉ ks →
  foldr add zero ((λ k, total (group k (r :: t))) <$> ks)
  = foldr add zero ((λ k, total (group k t)) <$> ks).
Proof.
  induction ks as [|k ks IH]; intros Hk; [done|].
  apply not_elem_of_cons in Hk as [Hne Hk].
  rewrite !fmap_cons. cbn [foldr]. rewrite IH by done.
  unfold group. rewrite filter_cons, decide_False by done. done.
Qed.

Lemma group_sums_cons (ks : list K) (r : Row) (t : DataFrame) :
  NoDup ks → key r ∈ ks →
  foldr add zero ((λ k, total (group k (r :: t))) <$> ks)
  = add (f r) (foldr add zero ((λ k, total (group k t)) <$> ks)).
Proof.
  induction 1 as [|k ks Hk Hks IH]; intros Hr; [by apply elem_of_nil in Hr|].
  rewrite !fmap_cons. cbn [foldr].
  destruct (decide (key r = k)) as [He|Hne].
  - rewrite group_sums_absent by (by rewrite He).
    unfold group at 1. rewrite filter_cons, decide_True by done.
    unfold total at 1. rewrite fmap_cons. cbn [foldr].
    by rewrite (assoc add).
  - apply elem_of_cons in Hr as [?|Hr]; [done|]. rewrite IH by done.
    unfold group at 1. rewrite filter_cons, decide_False by done.
    rewrite !(assoc add). f_equal. apply (comm add).
Qed.

(** Summing a column within each group and then over the groups gives the
    sum of the column, when the groups are distinct and cover the table. *)
Lemma group_sums_total (ks : list K) (t : DataFrame) :
  NoDup ks → (∀ r, r ∈ t → key r ∈ ks) →
  foldr add zero ((λ k, total (group k t)) <$> ks) = total t.
Proof.
  intros Hks. induction t as [|r t IH]; intros Hcover.
  - clear Hcover Hks. induction ks as [|k ks IH]; [done|].
    rewrite fmap_cons. cbn [foldr]. rewrite IH. apply (left_id zero add).
  - rewrite group_sums_cons; [|done|apply Hcover; left].
    rewrite IH; [done|]. intros r' Hr'. apply Hcover. by right.
Qed.
End GroupSums.

(** ** Totals of the daily aggregate *)

Lemma wrap64_add_l (a b : Z) : wrap64 (wrap64 a + b) = wrap64 (a + b).
Proof.
  unfold wrap64. f_equal.
  replace ((a + 2 ^ 63) mod 2 ^ 64 - 2 ^ 63 + b + 2 ^ 63)
    with ((a + 2 ^ 63) mod 2 ^ 64 + b) by lia.
  rewrite Zplus_mod_idemp_l. f_equal. lia.
Qed.

Lemma wrap64_add_r (a b : Z) : wrap64 (a + wrap64 b) = wrap64 (a + b).
Proof. by rewrite Z.add_comm, wrap64_add_l, Z.add_comm. Qed.

Lemma int_sum_wrapped {A} (g : A → Z) (l : list A) :
  int_sum ((λ x, wrap64 (g x)) <$> l) = int_sum (g <$> l).
Proof.
  unfold int_sum. induction l as [|x l IH]; [done|].
  rewrite !fmap_cons. cbn [foldr].
  rewrite wrap64_add_l, <-wrap64_add_r, IH, wrap64_add_r. done.
Qed.

Lemma daily_index_NoDup (d : DataFrame) : NoDup (daily_index d).
Proof. apply sorted_unique_NoDup. Qed.

Lemma daily_index_covers (d : DataFrame) (r : Row) :
  r ∈ d → Date r ∈ daily_index d.
Proof. intros Hr. apply elem_of_daily_index. eauto. Qed.

Lemma Qc_sum_by_date (f : Row → Qc) (d : DataFrame) :
  Qc_sum ((λ day, Qc_sum (f <$> on_date day d)) <$> daily_index d)
  = Qc_sum (f <$> d).
Proof.
  apply (group_sums_total Qcplus 0%Qc Date f);
    [apply daily_index_NoDup | apply daily_index_covers].
Qed.

Lemma int_sum_by_date (f : Row → Z) (d : DataFrame) :
  int_sum ((λ day, int_sum (f <$> on_date day d)) <$> daily_index d)
  = int_sum (f <$> d).
Proof.
  unfold int_sum at 2.
  rewrite (int_sum_wrapped (λ day, foldr Z.add 0 (f <$> on_date day d))).
  unfold int_sum. f_equal.
  apply (group_sums_total Z.add 0 Date f);
    [apply daily_index_NoDup | apply daily_index_covers].
Qed.


(** ** The two periods *)

Lemma filter_none {A} (P : A → Prop) `{!∀ x, Decision (P x)} (l : list A) :
  (∀ x, x ∈ l → ¬ P x) → filter P l = [].
Proof.
  induction l as [|x l IH]; intros Hall; [done|].
  rewrite filter_cons, decide_False by (apply Hall; left).
  apply IH. intros y Hy. apply Hall. by right.
Qed.

Lemma filter_all {A} (P : A → Prop) `{!∀ x, Decision (P x)} (l : list A) :
  (∀ x, x ∈ l → P x) → filter P l = l.
Proof.
  induction l as [|x l IH]; intros Hall; [done|].
  rewrite filter_cons, decide_True by (apply Hall; left).
  f_equal. apply IH. intros y Hy. apply Hall. by right.
Qed.

Lemma split_sorted {A} (key : A → Z) (c : Z) (l : list A) :
  StronglySorted Z.le (key <$> l) →
  filter (λ x, key x < c) l ++ filter (λ x, c ≤ key x) l = l.
Proof.
  induction l as [|x l IH]; [done|].
  rewrite fmap_cons. intros [Hl Hx]%StronglySorted_inv.
  rewrite !filter_cons. destruct (decide (key x < c)) as [Hlt|Hge].
  - rewrite decide_False by lia. cbn [app]. f_equal. by apply IH.
  - rewrite decide_True by lia.
    assert (∀ y, y ∈ l → key x ≤ key y) as Hle.
    { intros y Hy. rewrite Forall_forall in Hx.
      apply Hx, list_elem_of_fmap. eauto. }
    rewrite filter_none, filter_all; [done| |].
    + intros y Hy. specialize (Hle y Hy). lia.
    + intros y Hy. specialize (Hle y Hy). lia.
Qed.

Lemma daily_dates_sorted (d : DataFrame) :
  StronglySorted Z.le (Daily.Date <$> daily d).
Proof. rewrite daily_dates. apply (StronglySorted_merge_sort Z.le). Qed.

(** X3. The cutoff splits the daily aggregate into the pre-period rows
    followed by the post-period rows: every day is in exactly one period,
    and all days before the cutoff come first. *)
Theorem daily_is_pre_then_post (d : DataFrame) :
  daily d = pre d ++ post d
  ∧ (∀ a, a ∈ pre d ↔ a ∈ daily d ∧ Daily.Date a < cutoff)
  ∧ (∀ a, a ∈ post d ↔ a ∈ daily d ∧ cutoff ≤ Daily.Date a)
  ∧ (∀ a, a ∈ pre d → a ∉ post d)
  ∧ length (daily d) = (length (pre d) + length (post d))%nat.
Proof.
  assert (daily d = pre d ++ post d) as Hsplit.
  { symmetry. apply (split_sorted Daily.Date), daily_dates_sorted. }
  split_and!.
  - done.
  - intros a. unfold pre. rewrite list_elem_of_filter. tauto.
  - intros a. unfold post. rewrite list_elem_of_filter. tauto.
  - unfold pre, post. intros a [Hlt _]%list_elem_of_filter
      [Hge _]%list_elem_of_filter. lia.
  - by rewrite Hsplit at 1; rewrite length_app.
Qed.

(** The dates of a period of the daily aggregate are the distinct dates of
    the rows of that period. *)
Lemma filter_daily_index (P : Z → Prop) `{!∀ x, Decision (P x)}
    (d : DataFrame) :
  filter P (daily_index d)
  ≡ₚ remove_dups (Date <$> filter (λ r, P (Date r)) d).
Proof.
  apply NoDup_Permutation.
  - apply NoDup_filter, daily_index_NoDup.
  - apply NoDup_remove_dups.
  - intros day.
    rewrite list_elem_of_filter, elem_of_daily_index, elem_of_remove_dups,
      list_elem_of_fmap.
    split.
    + intros (HP & r & Hr & <-). exists r. split; [done|].
      by apply list_elem_of_filter.
    + intros (r & -> & [HP Hr]%list_elem_of_filter). eauto.
Qed.

Lemma filter_daily (P : Z → Prop) `{!∀ x, Decision (P x)} (d : DataFrame) :
  filter (λ a, P (Daily.Date a)) (daily d)
  = daily_row d <$> filter P (daily_index d).
Proof.
  unfold daily. induction (daily_index d) as [|x l IH]; [done|].
  rewrite fmap_cons, !filter_cons. cbn [daily_row Daily.Date].
  case_decide; [rewrite fmap_cons|]; by rewrite IH.
Qed.

Lemma pre_rows (d : DataFrame) :
  pre d = daily_row d <$> filter (λ day, day < cutoff) (daily_index d).
Proof. exact (filter_daily (λ day, day < cutoff) d). Qed.

Lemma post_rows (d : DataFrame) :
  post d = daily_row d <$> filter (λ day, cutoff ≤ day) (daily_index d).
Proof. exact (filter_daily (λ day, cutoff ≤ day) d). Qed.

Lemma n_pre_days_length (d : DataFrame) :
  n_pre_days d = Z.of_nat (length (pre d)).
Proof.
  rewrite pre_rows, length_fmap. unfold n_pre_days, nunique, pre_df.
  by rewrite (filter_daily_index (λ day, day < cutoff)).
Qed.

Lemma n_post_days_length (d : DataFrame) :
  n_post_days d = Z.of_nat (length (post d)).
Proof.
  rewrite post_rows, length_fmap. unfold n_post_days, nunique, post_df.
  by rewrite (filter_daily_index (λ day, cutoff ≤ day)).
Qed.

(** ** Averages of a period, by day and by row *)

Lemma float_sum_Fin (l : list Qc) : float_sum (Fin <$> l) = Fin (Qc_sum l).
Proof.
  unfold float_sum. rewrite filter_all.
  - induction l as [|x l IH]; [done|].
    rewrite fmap_cons. cbn [foldr]. by rewrite IH.
  - by intros x (q & -> & _)%list_elem_of_fmap.
Qed.

(** The mean of finite values, also when there is none. *)
Lemma mean_Fin (l : list Qc) :
  mean (Fin <$> l) = (Fin (Qc_sum l) / of_int (Z.of_nat (length l)))%fl.
Proof.
  unfold mean. rewrite float_sum_Fin, filter_all.
  - rewrite length_fmap. by destruct l.
  - by intros x (q & -> & _)%list_elem_of_fmap.
Qed.

Lemma on_date_period (P : Z → Prop) `{!∀ x, Decision (P x)}
    (Q : Row → Prop) `{!∀ r, Decision (Q r)} (day : Z) (d : DataFrame) :
  P day →
  on_date day (filter Q (filter (λ r, P (Date r)) d))
  = filter Q (on_date day d).
Proof.
  intros HP. unfold on_date. rewrite !list_filter_filter.
  apply list_filter_iff. intros r. split.
  - tauto.
  - intros [HQ Hd]. split_and!; [done..|]. by rewrite Hd.
Qed.

(** The per-day sums of a column over the days of a period add up to the sum
    of the column over the rows of that period. *)
Lemma period_sum_by_day (P : Z → Prop) `{!∀ x, Decision (P x)}
    (Q : Row → Prop) `{!∀ r, Decision (Q r)} (f : Row → Qc) (d : DataFrame) :
  Qc_sum ((λ day, Qc_sum (f <$> filter Q (on_date day d)))
            <$> filter P (daily_index d))
  = Qc_sum (f <$> filter Q (filter (λ r, P (Date r)) d)).
Proof.
  rewrite <-(group_sums_total Qcplus 0%Qc Date f (filter P (daily_index d))).
  - f_equal. apply list_fmap_ext. intros i day Hday.
    apply list_elem_of_lookup_2, list_elem_of_filter in Hday as [HP _].
    change (Qc_sum (f <$> filter Q (on_date day d))
            = Qc_sum (f <$> on_date day
                               (filter Q (filter (λ r, P (Date r)) d)))).
    by rewrite on_date_period.
  - apply NoDup_filter, daily_index_NoDup.
  - intros r [_ [HP Hr]%list_elem_of_filter]%list_elem_of_filter.
    apply list_elem_of_filter. split; [done|]. by apply daily_index_covers.
Qed.

Lemma filter_True {A} (l : list A) : filter (λ _, True) l = l.
Proof. by apply filter_all. Qed.

Lemma pre_revenue_by_day (d : DataFrame) :
  Qc_sum (Daily.Revenue <$> pre d) = Qc_sum (Revenue <$> pre_df d).
Proof.
  rewrite pre_rows, <-list_fmap_compose. unfold pre_df.
  pose proof (period_sum_by_day (λ day, day < cutoff) (λ _, True) Revenue d) as Hsum.
  rewrite filter_True in Hsum. rewrite <-Hsum.
  f_equal. apply list_fmap_ext. intros i day _.
  cbn [compose daily_row Daily.Revenue]. by rewrite filter_True.
Qed.

Lemma post_revenue_by_day (d : DataFrame) :
  Qc_sum (Daily.Revenue <$> post d) = Qc_sum (Revenue <$> post_df d).
Proof.
  rewrite post_rows, <-list_fmap_compose. unfold post_df.
  pose proof (period_sum_by_day (λ day, cutoff ≤ day) (λ _, True) Revenue d) as Hsum.
  rewrite filter_True in Hsum. rewrite <-Hsum.
  f_equal. apply list_fmap_ext. intros i day _.
  cbn [compose daily_row Daily.Revenue]. by rewrite filter_True.
Qed.

Lemma mean_daily_revenue_pre (d : DataFrame) :
  mean ((λ a, Fin (Daily.Revenue a)) <$> pre d) = pre_avg_rev d.
Proof.
  rewrite (list_fmap_compose Daily.Revenue Fin), mean_Fin, length_fmap.
  unfold pre_avg_rev, avg_rev.
  by rewrite pre_revenue_by_day, n_pre_days_length.
Qed.

Lemma mean_daily_revenue_post (d : DataFrame) :
  mean ((λ a, Fin (Daily.Revenue a)) <$> post d) = post_avg_rev d.
Proof.
  rewrite (list_fmap_compose Daily.Revenue Fin), mean_Fin, length_fmap.
  unfold post_avg_rev, avg_rev.
  by rewrite post_revenue_by_day, n_post_days_length.
Qed.


(** ** The phone-group comparison *)

Lemma phone_group_retired (r : Row) :
  row_Phone_Group r = "Retired (4 numbers)" ↔ isin_retired r = true.
Proof. unfold row_Phone_Group. by destruct (isin_retired r). Qed.

Lemma phone_group_active (r : Row) :
  row_Phone_Group r = "Active (2 numbers)" ↔ isin_retired r = false.
Proof. unfold row_Phone_Group. by destruct (isin_retired r). Qed.

Lemma phone_group_cases (r : Row) :
  row_Phone_Group r = "Retired (4 numbers)"
  ∨ row_Phone_Group r = "Active (2 numbers)".
Proof. unfold row_Phone_Group. destruct (isin_retired r); auto. Qed.

Lemma filter_pg_column (P : Z → Prop) `{!∀ x, Decision (P x)}
    (d : DataFrame) (g : string) :
  (λ e : Z * Qc, Fin e.2) <$> filter (λ e, P e.1) (pg_column d g)
  = Fin <$> ((λ day, Qc_sum (Revenue <$>
               filter (λ r, row_Phone_Group r = g) (on_date day d)))
             <$> filter P (daily_index d)).
Proof.
  unfold pg_column. induction (daily_index d) as [|x l IH]; [done|].
  rewrite fmap_cons, !filter_cons. cbn [fst].
  case_decide; [rewrite !fmap_cons; cbn [snd]|]; by rewrite IH.
Qed.

(** The average of a group over a period, in the comparison table. *)
Lemma pg_period_mean (P : Z → Prop) `{!∀ x, Decision (P x)}
    (d : DataFrame) (g : string) :
  mean ((λ e : Z * Qc, Fin e.2) <$> filter (λ e, P e.1) (pg_column d g))
  = avg_rev (filter (λ r, row_Phone_Group r = g)
               (filter (λ r, P (Date r)) d))
            (nunique (Date <$> filter (λ r, P (Date r)) d)).
Proof.
  rewrite filter_pg_column, mean_Fin, length_fmap.
  rewrite (period_sum_by_day P (λ r, row_Phone_Group r = g)).
  unfold avg_rev, nunique. by rewrite (filter_daily_index P).
Qed.

Lemma phone_group_row_retired (d : DataFrame) :
  Pre_decline_avg (phone_group_row d "Retired (4 numbers)")
    = pre_retired_rev d
  ∧ Post_decline_avg (phone_group_row d "Retired (4 numbers)")
    = post_retired_rev d.
Proof.
  pose proof (pg_period_mean (λ day, day < cutoff) d "Retired (4 numbers)") as Hpre.
  pose proof (pg_period_mean (λ day, cutoff ≤ day) d "Retired (4 numbers)") as Hpost.
  cbv beta in Hpre, Hpost.
  cbn [phone_group_row Pre_decline_avg Post_decline_avg].
  rewrite Hpre, Hpost.
  unfold pre_retired_rev, post_retired_rev, n_pre_days, n_post_days,
    pre_df, post_df.
  by rewrite !(list_filter_iff _ _ _ phone_group_retired).
Qed.

Lemma phone_group_row_active (d : DataFrame) :
  Pre_decline_avg (phone_group_row d "Active (2 numbers)")
    = pre_active_rev d
  ∧ Post_decline_avg (phone_group_row d "Active (2 numbers)")
    = post_active_rev d.
Proof.
  pose proof (pg_period_mean (λ day, day < cutoff) d "Active (2 numbers)") as Hpre.
  pose proof (pg_period_mean (λ day, cutoff ≤ day) d "Active (2 numbers)") as Hpost.
  cbv beta in Hpre, Hpost.
  cbn [phone_group_row Pre_decline_avg Post_decline_avg].
  rewrite Hpre, Hpost.
  unfold pre_active_rev, post_active_rev, n_pre_days, n_post_days,
    pre_df, post_df.
  by rewrite !(list_filter_iff _ _ _ phone_group_active).
Qed.




(** ** The inputs of model 1 *)

Lemma Post_Decline_pre (l : list Daily.t) :
  (∀ a, a ∈ l → Daily.Date a < cutoff) →
  (λ a, of_int (Post_Decline (Daily.Date a))) <$> l
  = replicate (length l) (of_int 0).
Proof.
  induction l as [|a l IH]; intros Hl; [done|].
  rewrite fmap_cons. cbn [length replicate]. f_equal.
  - unfold Post_Decline. rewrite decide_False; [done|].
    specialize (Hl a ltac:(left)). lia.
  - apply IH. intros b Hb. apply Hl. by right.
Qed.

Lemma Post_Decline_post (l : list Daily.t) :
  (∀ a, a ∈ l → cutoff ≤ Daily.Date a) →
  (λ a, of_int (Post_Decline (Daily.Date a))) <$> l
  = replicate (length l) (of_int 1).
Proof.
  induction l as [|a l IH]; intros Hl; [done|].
  rewrite fmap_cons. cbn [length replicate]. f_equal.
  - unfold Post_Decline. rewrite decide_True; [done|]. apply Hl. left.
  - apply IH. intros b Hb. apply Hl. by right.
Qed.

(** X7. In the design matrix of model 1 the period indicator is a run of
    zeros, one per pre-period day, followed by a run of ones, one per
    post-period day; the two predictor columns and the target have one entry
    per day.  So the indicator is constant as soon as one period is
    empty. *)
Theorem model1_design (d : DataFrame) :
  (X1 d).*1 = ["DayNum"; "Post_Decline"]
  ∧ (∀ col, ("Post_Decline", col) ∈ X1 d →
       col = replicate (length (pre d)) (of_int 0)
             ++ replicate (length (post d)) (of_int 1))
  ∧ (∀ c, c ∈ X1 d → length c.2 = nobs (y1 d))
  ∧ nobs (y1 d) = length (daily d).
Proof.
  split_and!.
  - done.
  - unfold X1. intros col Hcol.
    repeat (apply elem_of_cons in Hcol as [[= ->]|Hcol]);
      [|by apply elem_of_nil in Hcol].
    assert (daily d = pre d ++ post d) as Hsplit.
    { symmetry. apply (split_sorted Daily.Date), daily_dates_sorted. }
    rewrite Hsplit at 1. rewrite fmap_app. f_equal.
    + apply Post_Decline_pre. unfold pre.
      by intros a [? _]%list_elem_of_filter.
    + apply Post_Decline_post. unfold post.
      by intros a [? _]%list_elem_of_filter.
  - unfold X1, y1, nobs. intros c Hc.
    repeat (apply elem_of_cons in Hc as [->|Hc]);
      [..|by apply elem_of_nil in Hc]; cbn [snd]; by rewrite !length_fmap.
  - unfold y1, nobs. by rewrite length_fmap.
Qed.

(** ** Edge cases of the decomposition *)

Lemma fdiv_0_0 : (Fin 0%Qc / of_int 0)%fl = NaN.
Proof. reflexivity. Qed.

Lemma empty_period_averages (t : DataFrame) :
  t = [] →
  avg_rev t (nunique (Date <$> t)) = NaN
  ∧ avg_sent t (nunique (Date <$> t)) = NaN
  ∧ (∀ P : Row → Prop, ∀ HP : ∀ r, Decision (P r),
       avg_rev (filter P t) (nunique (Date <$> t)) = NaN).
Proof. by intros ->. Qed.

Lemma fsub_NaN_l (x : float64) : (NaN - x)%fl = NaN.
Proof. by destruct x. Qed.

Lemma fsub_NaN_r (x : float64) : (x - NaN)%fl = NaN.
Proof. by destruct x. Qed.

Lemma fmul_NaN_l (x : float64) : (NaN * x)%fl = NaN.
Proof. by destruct x. Qed.

Lemma fmul_NaN_r (x : float64) : (x * NaN)%fl = NaN.
Proof. by destruct x. Qed.

Lemma fdiv_NaN_l (x : float64) : (NaN / x)%fl = NaN.
Proof. by destruct x. Qed.

Lemma fdiv_NaN_r (x : float64) : (x / NaN)%fl = NaN.
Proof. by destruct x. Qed.

(** X8. When one of the two periods has no row, nothing faults and nothing
    is reported as a number: the total decline, the volume and efficiency
    effects, both group effects and all their shares are [NaN]. *)
Theorem empty_period_decomposition (d : DataFrame) :
  pre_df d = [] ∨ post_df d = [] →
  total_decline d = NaN
  ∧ volume_effect d = NaN
  ∧ efficiency_effect d = NaN
  ∧ retired_effect d = NaN
  ∧ active_effect d = NaN
  ∧ dec_volume_share (decomposition d) = NaN
  ∧ dec_efficiency_share (decomposition d) = NaN
  ∧ dec_retired_share (decomposition d) = NaN
  ∧ dec_active_share (decomposition d) = NaN.
Proof.
  intros Hempty.
  assert (total_decline d = NaN
          ∧ volume_effect d = NaN ∧ efficiency_effect d = NaN
          ∧ retired_effect d = NaN ∧ active_effect d = NaN)
    as (Ht & Hv & He & Hr & Ha).
  { unfold total_decline, volume_effect, efficiency_effect, retired_effect,
      active_effect, pre_rps, post_rps, pre_retired_rev, post_retired_rev,
      pre_active_rev, post_active_rev, pre_avg_rev, post_avg_rev,
      pre_avg_sent, post_avg_sent, n_pre_days, n_post_days.
    destruct Hempty as [H0|H0];
      destruct (empty_period_averages _ H0) as (-> & -> & HP);
      rewrite !HP;
      rewrite ?fsub_NaN_l, ?fsub_NaN_r, ?fdiv_NaN_l, ?fdiv_NaN_r,
        ?fmul_NaN_l, ?fmul_NaN_r, ?fsub_NaN_l, ?fsub_NaN_r,
        ?fmul_NaN_l, ?fmul_NaN_r;
      done. }
  cbn [decomposition dec_volume_share dec_efficiency_share
    dec_retired_share dec_active_share].
  unfold share. rewrite Ht, Hv, He, Hr, Ha. done.
Qed.

Lemma empty_period_decomposition_witness :
  total_decline [idle_row] = NaN
  ∧ volume_effect [idle_row] = NaN
  ∧ efficiency_effect [idle_row] = NaN
  ∧ retired_effect [idle_row] = NaN
  ∧ active_effect [idle_row] = NaN
  ∧ dec_volume_share (decomposition [idle_row]) = NaN
  ∧ dec_efficiency_share (decomposition [idle_row]) = NaN
  ∧ dec_retired_share (decomposition [idle_row]) = NaN
  ∧ dec_active_share (decomposition [idle_row]) = NaN.
Proof. apply (empty_period_decomposition [idle_row]). by left. Defined.

Lemma fsign_zero (q : Qc) : fsign (Fin q) = 0 ↔ q = 0%Qc.
Proof.
  unfold fsign. rewrite (Qceq_alt q 0).
  destruct (q ?= 0)%Qc; split; intros; done.
Qed.

(** The sign of a finite value that is not zero. *)
Lemma fsign_nonzero (q : Qc) :
  q ≠ 0%Qc → fsign (Fin q) = 1 ∨ fsign (Fin q) = -1.
Proof.
  intros Hq. destruct (fsign_cases q) as [?|[H0%fsign_zero|?]]; tauto.
Qed.

Lemma fadd_NaN_r (x : float64) : (x + NaN)%fl = NaN.
Proof. by destruct x. Qed.

Lemma laspeyres_zero_volume (r r' s s' : Qc) :
  s = 0%Qc ∨ s' = 0%Qc →
  ((Fin s' - Fin s) * (Fin r / Fin s)
   + (Fin r' / Fin s' - Fin r / Fin s) * Fin s')%fl = NaN.
Proof.
  intros [-> | ->].
  - rewrite fdiv_Fin_0, fsub_Fin. replace (s' - 0)%Qc with s' by ring.
    destruct (decide (s' = 0%Qc)) as [->|Hs'].
    + rewrite fdiv_Fin_0.
      destruct (fsign_cases r) as [-> | [-> | ->]],
        (fsign_cases r') as [-> | [-> | ->]]; done.
    + rewrite (fdiv_Fin r' s') by done.
      destruct (fsign_cases r) as [Hr | [Hr | Hr]]; rewrite Hr;
        cbn [inf_signed fsub fneg fadd fmul];
        destruct (fsign_nonzero s' Hs') as [Hs | Hs]; rewrite ?Hs;
        done.
  - rewrite fdiv_Fin_0.
    destruct (decide (s = 0%Qc)) as [->|Hs].
    + rewrite fdiv_Fin_0.
      destruct (fsign_cases r) as [-> | [-> | ->]],
        (fsign_cases r') as [-> | [-> | ->]]; done.
    + rewrite (fdiv_Fin r s) by done.
      assert (((inf_signed (fsign (Fin r')) - Fin (r / s)%Qc)
               * Fin 0%Qc)%fl = NaN) as ->.
      { by destruct (fsign_cases r') as [-> | [-> | ->]]. }
      apply fadd_NaN_r.
Qed.

Lemma period_averages_finite (d : DataFrame) :
  pre_df d ≠ [] → post_df d ≠ [] →
  ∃ r r' s s' : Qc,
    pre_avg_rev d = Fin r ∧ post_avg_rev d = Fin r'
    ∧ pre_avg_sent d = Fin s ∧ post_avg_sent d = Fin s'.
Proof.
  intros Hpre Hpost.
  pose proof (n_pre_days_ne_0 d Hpre) as Hn.
  pose proof (n_post_days_ne_0 d Hpost) as Hn'.
  unfold pre_avg_rev, post_avg_rev, pre_avg_sent, post_avg_sent.
  rewrite !avg_rev_Fin, !avg_sent_Fin by done. eauto 10.
Qed.



Lemma share_sum (a b t : Qc) :
  t ≠ 0%Qc → (a + b)%Qc = t →
  (share (Fin a) (Fin t) + share (Fin b) (Fin t))%fl = of_int 100.
Proof.
  intros Ht <-. unfold share, of_int. rewrite !fdiv_Fin by done.
  cbn [fmul fadd]. f_equal. generalize (Qc_of_Z 100). intros c. by field.
Qed.



(** ** Which ratios can be undefined *)

Lemma of_int_ratio_finite (x : float64) (s : Z) :
  is_finite x = true →
  (is_finite (x / of_int s)%fl = true ↔ s ≠ 0).
Proof.
  destruct x as [q| | |]; [intros _|done..]. unfold of_int. split.
  - intros Hfin ->. rewrite Z2Qc_inj_0, fdiv_Fin_0 in Hfin.
    by rewrite inf_signed_not_finite in Hfin.
  - intros Hs. by rewrite fdiv_Fin by (by apply Qc_of_Z_ne_0).
Qed.

Lemma replace_0_1_ne_0 (z : Z) : replace_0_1 z ≠ 0.
Proof. unfold replace_0_1. by case_decide. Qed.


Lemma guarded_ratio_cases (x : float64) (s : Z) :
  is_finite x = true →
  (0 < s → is_finite (guarded_ratio x s) = true)
  ∧ (s ≤ 0 → guarded_ratio x s = NaN)
  ∧ is_inf (guarded_ratio x s) = false.
Proof.
  intros Hx. unfold guarded_ratio. case_decide as Hs.
  - assert (is_finite (x / of_int s)%fl = true) as Hfin.
    { apply of_int_ratio_finite; [done|lia]. }
    split_and!; [done|lia|]. by destruct (x / of_int s)%fl.
  - split_and!; [lia|done|done].
Qed.

(** X12. At row level the three derived ratios are never infinite: each one
    is a finite number when the row sent something and [NaN] otherwise,
    also for a negative [Sent]. *)
Theorem row_ratios_guarded (raw : DataFrame) :
  Forall (λ e,
    let s := Sent (Enriched.base e) in
    (0 < s →
       is_finite (Enriched.Delivery_Rate e) = true
       ∧ is_finite (Enriched.CTR e) = true
       ∧ is_finite (Enriched.Rev_per_Sent e) = true)
    ∧ (s ≤ 0 →
         Enriched.Delivery_Rate e = NaN
         ∧ Enriched.CTR e = NaN
         ∧ Enriched.Rev_per_Sent e = NaN)
    ∧ is_inf (Enriched.Delivery_Rate e) = false
    ∧ is_inf (Enriched.CTR e) = false
    ∧ is_inf (Enriched.Rev_per_Sent e) = false) (enrich raw).
Proof.
  apply Forall_forall. unfold enrich.
  intros e (r & -> & _)%list_elem_of_fmap.
  cbn [enrich_row Enriched.base Enriched.Delivery_Rate Enriched.CTR
    Enriched.Rev_per_Sent].
  unfold row_Delivery_Rate, row_CTR, row_Rev_per_Sent.
  destruct (guarded_ratio_cases (of_int (Delivered r)) (Sent r))
    as (? & ? & ?); [done|].
  destruct (guarded_ratio_cases (of_int (Clicks r)) (Sent r))
    as (? & ? & ?); [done|].
  destruct (guarded_ratio_cases (Fin (Revenue r)) (Sent r))
    as (? & ? & ?); [done|].
  split_and!; auto.
Qed.

(** X13. When every retained row satisfies [0 ≤ Delivered ≤ Sent] and
    [0 ≤ Clicks ≤ Sent], the delivery rate and the click-through rate of a
    day whose messages sent add up to a positive [int64] value lie in
    [0, 1]. *)
Theorem daily_rates_of_consistent_rows (raw : DataFrame) (a : Daily.t) :
  (∀ r, r ∈ df raw →
     0 ≤ Delivered r ≤ Sent r ∧ 0 ≤ Clicks r ≤ Sent r) →
  a ∈ daily (df raw) →
  0 < foldr Z.add 0 (Sent <$> on_date (Daily.Date a) (df raw)) < 2 ^ 63 →
  in_unit_interval (Daily.Delivery_Rate a)
  ∧ in_unit_interval (Daily.CTR a).
Proof.
  intros Hrows Ha [Hpos Hmax].
  destruct (consistent_rows_consistent_totals raw a Ha Hrows Hmax)
    as [Hdel Hcl].
  destruct (daily_rates_of_totals _ a Ha) as (-> & -> & _).
  assert (0 < Daily.Sent a) as Hsent.
  { apply elem_of_daily in Ha as (day & _ & ->).
    cbn [daily_row Daily.Sent Daily.Date] in *. unfold int_sum.
    rewrite wrap64_small; lia. }
  split; by apply unit_ratio.
Qed.

Lemma daily_rates_of_consistent_rows_witness :
  in_unit_interval (Daily.Delivery_Rate (daily_row (df two_days) 20487))
  ∧ in_unit_interval (Daily.CTR (daily_row (df two_days) 20487)).
Proof.
  apply (daily_rates_of_consistent_rows two_days).
  - intros r Hr. vm_compute in Hr.
    repeat (apply elem_of_cons in Hr as [->|Hr]);
      [..|by apply elem_of_nil in Hr]; by vm_compute.
  - apply elem_of_daily. exists 20487. split; [|done].
    vm_compute. apply list_elem_of_here.
  - by vm_compute.
Defined.

(** ** Labels and day numbers of the enriched table *)

Lemma phone_map_total (d : DataFrame) (r : Row) :
  r ∈ d →
  ∃ i, (i < size (phone_map d))%nat
       ∧ phone_ids d !! i = Some (Sms_Phone_Number r)
       ∧ phone_map d !! Sms_Phone_Number r = Some (phone_label i).
Proof.
  intros Hr.
  assert (Sms_Phone_Number r ∈ phone_ids d) as [i Hi]%list_elem_of_lookup.
  { apply elem_of_phone_ids. eauto. }
  exists i. split_and!; [|done|].
  - rewrite size_phone_map. by eapply lookup_lt_Some.
  - apply phone_map_lookup. eauto.
Qed.

(** X14. Enrichment keeps the retained rows, in order, and gives every one
    of them a label [Phone_1 .. Phone_N]: the lookup in the label mapping
    never misses, and two rows carry the same label exactly when they have
    the same phone identifier. *)
Theorem enrich_labels (raw : DataFrame) :
  Enriched.base <$> enrich raw = df raw
  ∧ length (enrich raw) = length (df raw)
  ∧ Forall (λ e, ∃ i, (i < size (phone_map (df raw)))%nat
                      ∧ Enriched.Phone_Label e = Some (phone_label i))
      (enrich raw)
  ∧ Forall (λ e1, Forall (λ e2,
        Enriched.Phone_Label e1 = Enriched.Phone_Label e2
        ↔ Sms_Phone_Number (Enriched.base e1)
          = Sms_Phone_Number (Enriched.base e2)) (enrich raw))
      (enrich raw).
Proof.
  unfold enrich. split_and!.
  - rewrite <-list_fmap_compose. apply list_fmap_id.
  - apply length_fmap.
  - apply Forall_forall. intros e (r & -> & Hr)%list_elem_of_fmap.
    destruct (phone_map_total _ r Hr) as (i & Hi & _ & Hl).
    exists i. by cbn [enrich_row Enriched.Phone_Label].
  - apply Forall_forall. intros e1 (r1 & -> & Hr1)%list_elem_of_fmap.
    apply Forall_forall. intros e2 (r2 & -> & Hr2)%list_elem_of_fmap.
    cbn [enrich_row Enriched.Phone_Label Enriched.base].
    destruct (phone_map_total _ r1 Hr1) as (i & _ & Hi & Hl1).
    destruct (phone_map_total _ r2 Hr2) as (j & _ & Hj & Hl2).
    split; [|by intros ->].
    rewrite Hl1, Hl2. intros Heq.
    assert (i = j) as -> by (apply phone_label_inj; congruence).
    congruence.
Qed.

Lemma foldr_min_spec (x : Z) (l : list Z) :
  foldr Z.min x l ∈ x :: l ∧ ∀ y, y ∈ x :: l → foldr Z.min x l ≤ y.
Proof.
  induction l as [|z l [IHin IHle]]; cbn [foldr].
  - split; [left|]. by intros y ->%list_elem_of_singleton.
  - split.
    + destruct (Z.min_spec z (foldr Z.min x l)) as [[_ ->]|[_ ->]].
      * right. left.
      * apply elem_of_cons in IHin as [->|?]; [left|by do 2 right].
    + intros y Hy. pose proof (Z.le_min_l z (foldr Z.min x l)).
      pose proof (Z.le_min_r z (foldr Z.min x l)).
      apply elem_of_cons in Hy as [->|[->|Hy]%elem_of_cons].
      * specialize (IHle x ltac:(left)). lia.
      * lia.
      * specialize (IHle y ltac:(by right)). lia.
Qed.

Lemma min_date_spec (l : list Z) (m : Z) :
  min_date l = Some m ↔ m ∈ l ∧ ∀ y, y ∈ l → m ≤ y.
Proof.
  destruct l as [|x l]; cbn [min_date].
  - split; [done|]. by intros [?%elem_of_nil _].
  - destruct (foldr_min_spec x l) as [Hin Hle]. split.
    + by intros [= <-].
    + intros [Hm Hmin]. f_equal.
      specialize (Hle m Hm). specialize (Hmin _ Hin). lia.
Qed.

Lemma min_date_ext (l1 l2 : list Z) :
  (∀ x, x ∈ l1 ↔ x ∈ l2) → min_date l1 = min_date l2.
Proof.
  intros Hl. destruct (min_date l1) as [m|] eqn:E1.
  - symmetry. apply min_date_spec. apply min_date_spec in E1 as [Hm Hmin].
    split; [by apply Hl|]. intros y Hy. by apply Hmin, Hl.
  - destruct l1; [|done]. destruct l2 as [|y l2]; [done|].
    by destruct (proj2 (Hl y) ltac:(left)).
Qed.

Lemma min_date_daily_index (d : DataFrame) :
  min_date (daily_index d) = min_date (Date <$> d).
Proof.
  apply min_date_ext. intros day.
  rewrite elem_of_daily_index, list_elem_of_fmap.
  split; [intros (r & Hr & <-) | intros (r & -> & Hr)]; eauto.
Qed.

Lemma DayNum_nonneg (l : list Z) (x : Z) :
  x ∈ l → 0 ≤ x - default 0 (min_date l).
Proof.
  intros Hx. destruct (min_date l) as [m|] eqn:E.
  - apply min_date_spec in E as [_ Hmin]. specialize (Hmin x Hx).
    simpl. lia.
  - destruct l; [by apply elem_of_nil in Hx|done].
Qed.

(** X15. Day numbers count from the earliest date of the filtered table: no
    row has a negative one, some row has day number zero, the first row of
    the daily aggregate has day number zero, and a date has the same day
    number in the daily aggregate as on the rows. *)
Theorem day_numbers (d : DataFrame) :
  Forall (λ r, 0 ≤ row_DayNum d r) d
  ∧ Forall (λ a, 0 ≤ Daily.DayNum a) (daily d)
  ∧ Forall (λ r, Forall (λ a,
        Date r = Daily.Date a → row_DayNum d r = Daily.DayNum a) (daily d)) d
  ∧ from_option (λ a, Daily.DayNum a = 0) (d = []) (head (daily d))
  ∧ (d = [] ∨ ∃ r, r ∈ d ∧ row_DayNum d r = 0).
Proof.
  split_and!.
  - apply Forall_forall. intros r Hr.
    unfold row_DayNum. cbn [enrich_row Enriched.DayNum].
    apply DayNum_nonneg, list_elem_of_fmap. eauto.
  - apply Forall_forall. intros a (day & Hday & ->)%elem_of_daily.
    cbn [daily_row Daily.DayNum]. by apply DayNum_nonneg.
  - apply Forall_forall. intros r Hr.
    apply Forall_forall. intros a (day & Hday & ->)%elem_of_daily.
    unfold row_DayNum. cbn [enrich_row Enriched.DayNum daily_row Daily.DayNum
      Daily.Date].
    intros ->. by rewrite min_date_daily_index.
  - unfold daily. destruct (daily_index d) as [|day l] eqn:E.
    + cbn. destruct d as [|r d]; [done|].
      assert (Date r ∈ daily_index (r :: d)) as Hin
        by (apply daily_index_covers; left).
      rewrite E in Hin. by apply elem_of_nil in Hin.
    + cbn [fmap list_fmap head from_option daily_row Daily.DayNum].
      rewrite E.
      assert (min_date (day :: l) = Some day) as ->; [|simpl; lia].
      apply min_date_spec. split; [left|]. intros y Hy.
      pose proof (StronglySorted_merge_sort Z.le (unique (Date <$> d)))
        as Hs.
      change (StronglySorted Z.le (daily_index d)) in Hs. rewrite E in Hs.
      apply StronglySorted_inv in Hs as [_ Hs]. rewrite Forall_forall in Hs.
      apply elem_of_cons in Hy as [->|Hy]; [lia|by apply Hs].
  - destruct d as [|r0 d0] eqn:Ed; [by left|right]. rewrite <-Ed.
    destruct (min_date (Date <$> d)) as [m|] eqn:E.
    + pose proof E as [(r & -> & Hr)%list_elem_of_fmap _]%min_date_spec.
      exists r. split; [done|].
      unfold row_DayNum. cbn [enrich_row Enriched.DayNum].
      rewrite E. simpl. lia.
    + by rewrite Ed in E.
Qed.

(** ** Dummy columns and the inputs of model 2 *)

Lemma sorted_str_Permutation (l : list string) : sorted_str l ≡ₚ l.
Proof. apply merge_sort_Permutation. Qed.

Lemma levels_NoDup (col : list string) : NoDup (sorted_str (unique col)).
Proof. rewrite sorted_str_Permutation. apply NoDup_unique. Qed.

Lemma elem_of_levels (col : list string) (v : string) :
  v ∈ sorted_str (unique col) ↔ v ∈ col.
Proof. by rewrite sorted_str_Permutation, elem_of_unique. Qed.

Lemma length_levels (col : list string) :
  length (sorted_str (unique col)) = length (remove_dups col).
Proof. by rewrite sorted_str_Permutation, length_unique. Qed.

Lemma count_NoDup {A} `{EqDecision A} (v : A) (l : list A) :
  NoDup l →
  length (filter (λ x, v = x) l) = if decide (v ∈ l) then 1%nat else 0%nat.
Proof.
  induction 1 as [|x l Hx Hl IH]; [done|].
  rewrite filter_cons. destruct (decide (v = x)) as [->|Hne].
  - rewrite decide_True by left. cbn [length]. rewrite IH.
    by rewrite decide_False.
  - rewrite IH. destruct (decide (v ∈ l)).
    + rewrite decide_True; [done|by right].
    + rewrite decide_False; [done|]. by intros [?|?]%elem_of_cons.
Qed.

Lemma dummy_entry (prefix : string) (col levels : list string)
    (i : nat) (v : string) :
  col !! i = Some v →
  length (filter (λ c : string * list float64, c.2 !! i = Some (of_int 1))
            ((λ level, (prefix +:+ "_" +:+ level,
                        (λ v, of_int (if decide (v = level) then 1 else 0))
                          <$> col)) <$> levels))
  = length (filter (λ level, v = level) levels).
Proof.
  intros Hv. induction levels as [|l levels IH]; [done|].
  rewrite fmap_cons, !filter_cons. cbn [snd].
  rewrite list_lookup_fmap, Hv. cbn [fmap option_fmap option_map].
  destruct (decide (v = l)) as [->|Hne].
  - rewrite decide_True by done. cbn [length]. by rewrite IH.
  - rewrite decide_False; [done|].
    by intros [= H].
Qed.

Lemma length_get_dummies (prefix : string) (col : list string) :
  length (get_dummies prefix col) = pred (length (remove_dups col)).
Proof.
  unfold get_dummies. rewrite length_fmap, <-length_levels.
  by destruct (sorted_str (unique col)).
Qed.

Lemma get_dummies_column_lengths (prefix : string) (col : list string) :
  Forall (λ c, length c.2 = length col) (get_dummies prefix col).
Proof.
  unfold get_dummies. apply Forall_forall.
  intros c (level & -> & _)%list_elem_of_fmap. cbn [snd]. apply length_fmap.
Qed.


Lemma get_dummies_names (prefix : string) (col : list string) :
  (∀ level, prefix +:+ "_" +:+ level ≠ "Delivered") →
  filter (λ x : string * list float64, x.1 ≠ "Delivered")
    (get_dummies prefix col) = get_dummies prefix col.
Proof.
  intros Hne. apply filter_all. unfold get_dummies.
  intros x (level & -> & _)%list_elem_of_fmap. apply Hne.
Qed.


(** ** Significance tiers *)

Lemma Sig_Fin (p : Qc) :
  Sig (Fin p)
  = if decide (p < Q2Qc (1 # 1000))%Qc then "***"
    else if decide (p < Q2Qc (1 # 100))%Qc then "**"
    else if decide (p < Q2Qc (5 # 100))%Qc then "*"
    else "".
Proof.
  unfold Sig, fltb. repeat case_bool_decide; repeat case_decide; done.
Qed.

Ltac Qc_order :=
  unfold Qclt, Qcle in *;
  repeat match goal with
  | H : context [this (Q2Qc ?q)] |- _ =>
      let r := eval vm_compute in (this (Q2Qc q)) in
      change (this (Q2Qc q)) with r in H
  | |- context [this (Q2Qc ?q)] =>
      let r := eval vm_compute in (this (Q2Qc q)) in
      change (this (Q2Qc q)) with r
  | H : ¬ (_ < _)%Q |- _ => apply Qnot_lt_le in H
  end;
  lra.

(** X18. The significance mark of a p-value has three stars below 0.001, two
    below 0.01, one below 0.05 and none from 0.05 on; a smaller p-value never
    gets fewer stars, and a p-value that is [NaN] gets none. *)
Theorem Sig_tiers :
  Sig NaN = ""
  ∧ (∀ p : Qc,
       (Sig (Fin p) = "***" ↔ (p < Q2Qc (1 # 1000))%Qc)
       ∧ (Sig (Fin p) = "**"
          ↔ (Q2Qc (1 # 1000) ≤ p)%Qc ∧ (p < Q2Qc (1 # 100))%Qc)
       ∧ (Sig (Fin p) = "*"
          ↔ (Q2Qc (1 # 100) ≤ p)%Qc ∧ (p < Q2Qc (5 # 100))%Qc)
       ∧ (Sig (Fin p) = "" ↔ (Q2Qc (5 # 100) ≤ p)%Qc))
  ∧ (∀ p q : Qc, (p ≤ q)%Qc →
       (String.length (Sig (Fin q)) ≤ String.length (Sig (Fin p)))%nat).
Proof.
  split_and!.
  - done.
  - intros p. rewrite Sig_Fin.
    repeat case_decide; split_and!; split; intros; destruct_and?;
      first [ done | exfalso; Qc_order | split_and?; Qc_order ].
  - intros p q Hpq. rewrite !Sig_Fin.
    repeat case_decide; cbn [String.length]; try lia; exfalso; Qc_order.
Qed.

(** ** The tables of the report *)

Lemma string_length_app (s1 s2 : string) :
  String.length (s1 +:+ s2) = (String.length s1 + String.length s2)%nat.
Proof. induction s1 as [|a s1 IH]; [done|]. simpl. by f_equal. Qed.

Lemma font_longer (colour val : string) :
  (String.length val < String.length (Report.font colour val))%nat.
Proof.
  unfold Report.font. rewrite !string_length_app. cbn [String.length]. lia.
Qed.

Lemma font_not_identity (colour val : string) : Report.font colour val ≠ val.
Proof.
  intros H. pose proof (font_longer colour val) as Hlen.
  rewrite H in Hlen. lia.
Qed.

Lemma font_red_not_green (val : string) :
  Report.font "#B42828" val ≠ Report.font "#1E7A1E" val.
Proof. by intros [=]. Qed.

(** A value that starts with a plus sign starts neither with a hyphen nor
    with an en dash, so the order of the two tests does not matter. *)
Lemma plus_not_minus (val : string) :
  Report.startswith val "+" = true →
  Report.startswith val "-" || Report.startswith val "–" = false.
Proof.
  unfold Report.startswith. destruct val as [|a val]; [done|].
  cbn [String.prefix]. destruct (Ascii.ascii_dec _ a) as [<-|]; [|done].
  by intros _.
Qed.

(** X19. The colouring of the highlighted column wraps a value in red
    markup exactly when it starts with a hyphen or an en dash, in green
    markup exactly when it starts with a plus sign, and leaves it as it is
    exactly in all other cases, among them the empty text and the em dash
    used as a placeholder. *)
Theorem highlight_cases (val : string) :
  (Report.highlight val = Report.font "#B42828" val
   ↔ Report.startswith val "-" || Report.startswith val "–" = true)
  ∧ (Report.highlight val = Report.font "#1E7A1E" val
     ↔ Report.startswith val "+" = true)
  ∧ (Report.highlight val = val
     ↔ Report.startswith val "-" || Report.startswith val "–" = false
       ∧ Report.startswith val "+" = false)
  ∧ Report.highlight "" = ""
  ∧ Report.highlight "—" = "—".
Proof.
  pose proof (plus_not_minus val) as Hplus.
  pose proof (font_not_identity "#B42828" val).
  pose proof (font_not_identity "#1E7A1E" val).
  pose proof (font_red_not_green val).
  unfold Report.highlight.
  destruct (Report.startswith val "-" || Report.startswith val "–") eqn:Em,
    (Report.startswith val "+") eqn:Ep;
    try (by specialize (Hplus eq_refl));
    split_and!; try done; split; try done; intros; destruct_and?; congruence.
Qed.


Lemma length_even_upto (m : nat) :
  length (filter (λ i, i mod 2 = 0)%nat (seq 1 m)) = (m / 2)%nat.
Proof.
  induction m as [|m IH]; [done|].
  rewrite seq_S, filter_app, length_app, IH.
  cbn [Nat.add]. rewrite filter_cons, filter_nil.
  pose proof (Nat.div_mod_eq m 2). pose proof (Nat.div_mod_eq (S m) 2).
  pose proof (Nat.mod_upper_bound m 2). pose proof (Nat.mod_upper_bound (S m) 2).
  case_decide; cbn [length]; lia.
Qed.

Lemma base_style_not_shade (i : nat) : Report.shade i ∉ Report.base_style.
Proof.
  unfold Report.base_style. intros H.
  repeat (apply elem_of_cons in H as [[=]|H]). by apply elem_of_nil in H.
Qed.

